(** * A shallow embedding of the Google Maps CLI search tool ([main.py])

    The script builds a query string, calls the [gomaps] collaborator,
    normalises the returned place records and writes them to a dated CSV
    file.  This development embeds the five functions of the script
    ([sanitize_filename], [format_location_query], [search_places],
    [export_to_csv], [main]) and states the properties of its
    specification over them.

    Conventions of the embedding:
    - a Python [str] is the list of its Unicode code points;
    - Python values that travel through the script untouched are kept in
      a small universe [value]; a [dict] with string keys is a [gmap];
    - code that can raise returns a [result]; the exception classes are
      those the modelled operations raise, all below [Exception];
    - calls to the collaborator and the files written are recorded in an
      explicit [world]; the collaborator, the clock, the file system's
      answer to [open], the csv writer's answer to a row and the Unicode
      tables of the interpreter are the fields of an environment [env];
      once a file is open, the file system takes what is written to it;
    - [print] writes to standard output only and is left out; of the
      summary that [main] prints, the choice of what is shown is kept. *)

From Stdlib Require Import ZArith NArith String Ascii List DecimalString SpecFloat Lia.
From stdpp Require Import gmap list.

Set Warnings "-register-all".
Local Open Scope N_scope.

(** ** Python strings *)

Abbreviation codepoint := N (only parsing).
Abbreviation pystr := (list N) (only parsing).

(** A string literal of the source (all of them are ASCII). *)
Definition lit (s : string) : pystr :=
  List.map N_of_ascii (list_ascii_of_string s).

(** [str(n)] for an [int]: the decimal digits, with a leading minus sign. *)
Definition str_of_int (n : Z) : pystr :=
  lit (NilZero.string_of_int (Z.to_int n)).

Definition hyphen : codepoint := 45.
Definition space : codepoint := 32.
Definition underscore : codepoint := 95.

Definition is_ascii (c : codepoint) : bool := c <? 128.
Definition is_digit (c : codepoint) : bool := (48 <=? c) && (c <=? 57).
Definition is_upper (c : codepoint) : bool := (65 <=? c) && (c <=? 90).
Definition is_lower (c : codepoint) : bool := (97 <=? c) && (c <=? 122).

(** The tables of the interpreter's Unicode database that [re] and
    [str.lower] consult for code points outside ASCII.  [lower_ucs4 before
    c after] is the full lowercase mapping of [c] standing between
    [before] and [after] (the mapping of capital sigma depends on its
    context, every other one on [c] alone). *)
Record unicode_db := {
  Py_UNICODE_ISALNUM : codepoint -> bool;
  lower_ucs4 : pystr -> codepoint -> pystr -> pystr
}.

(** [\w] of a [str] pattern: alphanumeric or underscore. *)
Definition is_word (U : unicode_db) (c : codepoint) : bool :=
  if is_ascii c
  then is_digit c || is_upper c || is_lower c || (c =? underscore)
  else Py_UNICODE_ISALNUM U c.

(** [s.replace(old, new)] for one-character [old] and [new]. *)
Definition replace (old new : codepoint) (s : pystr) : pystr :=
  List.map (fun c => if c =? old then new else c) s.

(** [re.sub(r'[^\w\-]', '', s)]: delete whatever is neither a word
    character nor a hyphen. *)
Definition sub_non_word (U : unicode_db) (s : pystr) : pystr :=
  List.filter (fun c => is_word U c || (c =? hyphen)) s.

(** [s.lower()]: ASCII letters are shifted, the rest goes through the
    Unicode tables. *)
Definition lower_char (U : unicode_db) (before : pystr) (c : codepoint)
    (after : pystr) : pystr :=
  if is_ascii c then [if is_upper c then c + 32 else c]
  else lower_ucs4 U before c after.

Fixpoint lower_from (U : unicode_db) (before s : pystr) : pystr :=
  match s with
  | [] => []
  | c :: after =>
      lower_char U before c after ++ lower_from U (before ++ [c]) after
  end.

Definition lower (U : unicode_db) (s : pystr) : pystr := lower_from U [] s.

Definition starts_with_hyphen (s : pystr) : bool :=
  match s with
  | c :: _ => c =? hyphen
  | [] => false
  end.

Fixpoint ends_with_hyphen (s : pystr) : bool :=
  match s with
  | [] => false
  | [c] => c =? hyphen
  | _ :: rest => ends_with_hyphen rest
  end.

(** Two hyphens in a row somewhere in [s]. *)
Fixpoint double_hyphen (s : pystr) : bool :=
  match s with
  | [] => false
  | c :: rest =>
      ((c =? hyphen) && starts_with_hyphen rest) || double_hyphen rest
  end.

(** [re.sub(r'-+', '-', s)]: every maximal run of hyphens becomes one (a
    hyphen followed by a hyphen is dropped). *)
Fixpoint sub_hyphens (s : pystr) : pystr :=
  match s with
  | [] => []
  | c :: rest =>
      if (c =? hyphen) && starts_with_hyphen rest
      then sub_hyphens rest
      else c :: sub_hyphens rest
  end.

(** [s.strip('-')], as [lstrip] followed by [rstrip]. *)
Fixpoint lstrip (s : pystr) : pystr :=
  match s with
  | [] => []
  | c :: rest => if c =? hyphen then lstrip rest else s
  end.

Fixpoint rstrip (s : pystr) : pystr :=
  match s with
  | [] => []
  | c :: rest =>
      match rstrip rest with
      | [] => if c =? hyphen then [] else [c]
      | r => c :: r
      end
  end.

Definition strip (s : pystr) : pystr := rstrip (lstrip s).

Definition sanitize_filename (U : unicode_db) (filename : pystr) : pystr :=
  let filename := replace space hyphen filename in
  let filename := sub_non_word U filename in
  let filename := lower U filename in
  let filename := sub_hyphens filename in
  let filename := strip filename in
  filename.

(** The characters a sanitized ASCII name is made of. *)
Definition is_plain (c : codepoint) : bool :=
  is_digit c || is_lower c || (c =? underscore) || (c =? hyphen).

(** Truth value of an optional string and of an optional [int]
    ([None], [''] and [0] are false). *)
Definition truthy_str (s : option pystr) : bool :=
  match s with
  | Some (_ :: _) => true
  | _ => false
  end.

Definition truthy_int (n : option Z) : bool :=
  match n with
  | Some z => negb (z =? 0)%Z
  | None => false
  end.

(** [f"{zip_code}"] and [f"{distance}"]. *)
Definition fmt_str (s : option pystr) : pystr :=
  match s with Some z => z | None => lit "None" end.

Definition fmt_int (n : option Z) : pystr :=
  match n with Some z => str_of_int z | None => lit "None" end.

Definition format_location_query (base_query : pystr)
    (zip_code : option pystr) (distance : option Z) : pystr :=
  if truthy_str zip_code then
    let query := base_query ++ lit " near " ++ fmt_str zip_code in
    if truthy_int distance
    then base_query ++ lit " within " ++ fmt_int distance
           ++ lit " miles of " ++ fmt_str zip_code
    else query
  else base_query.

(** ** Python values and exceptions *)

(** What a place record can hold.  A [float] is kept as its IEEE 754
    value; the keys of a [dict] are strings. *)
Inductive value :=
| VNone
| VBool (b : bool)
| VInt (n : Z)
| VFloat (x : spec_float)
| VStr (s : pystr)
| VTuple (items : list value)
| VList (items : list value)
| VDict (d : gmap pystr value).

Abbreviation dict := (gmap pystr value) (only parsing).

Definition empty_str : value := VStr [].

Inductive exn :=
| TypeError
| IndexError
| KeyError
| AttributeError
| OSError
| UnicodeEncodeError
| OtherException (message : pystr).

Inductive result (A : Type) :=
| Ok (a : A)
| Raise (e : exn).
Arguments Ok {A} a.
Arguments Raise {A} e.

#[global] Instance result_ret : MRet result := fun A a => Ok a.

#[global] Instance result_bind : MBind result := fun A B k m =>
  match m with
  | Ok a => k a
  | Raise e => Raise e
  end.

(** [bool(v)]. *)
Definition truthy (v : value) : bool :=
  match v with
  | VNone => false
  | VBool b => b
  | VInt n => negb (n =? 0)%Z
  | VFloat x => match x with S754_zero _ => false | _ => true end
  | VStr s => match s with [] => false | _ => true end
  | VTuple items | VList items => match items with [] => false | _ => true end
  | VDict d => negb (Nat.eqb (size d) 0)
  end.

(** [v[i]] for a literal index [i >= 0]. *)
Definition getitem (v : value) (i : nat) : result value :=
  match v with
  | VTuple items | VList items =>
      match items !! i with
      | Some x => Ok x
      | None => Raise IndexError
      end
  | VStr s =>
      match s !! i with
      | Some c => Ok (VStr [c])
      | None => Raise IndexError
      end
  | VDict _ => Raise KeyError
  | VNone | VBool _ | VInt _ | VFloat _ => Raise TypeError
  end.

(** [v.get(key, dflt)]: only a [dict] has the method. *)
Definition get_method (v : value) (key : pystr) (dflt : value) : result value :=
  match v with
  | VDict d => Ok (default dflt (d !! key))
  | _ => Raise AttributeError
  end.

(** [d.get(key, dflt)] on a record known to be a [dict]. *)
Definition dict_get (d : dict) (key : pystr) (dflt : value) : value :=
  default dflt (d !! key).

(** ** The collaborator *)

(** A place handle of [gomaps]: the attributes it may carry ([None] when
    [hasattr] is false) and the outcome of its detail fetch. *)
Record place := {
  place_title : option value;
  place_url : option value;
  place_coords : option value;
  get_values : result dict
}.

Record env := {
  unicode : unicode_db;
  (** [gomaps.maps_search(query, page_num=page_num, delay=5, log=False)] *)
  maps_search : pystr -> Z -> result (list place);
  (** [datetime.now().strftime("%Y%m%d")] *)
  date_stamp : pystr;
  (** whether [open(filename, 'w', ...)] succeeds *)
  open_for_writing : pystr -> bool;
  (** [writer.writerow(values)] of the csv writer on the UTF-8 file: the
      exception it raises, if it raises (a cell the file cannot encode) *)
  csv_writer_error : list value -> option exn
}.

Record world := {
  search_calls : list (pystr * Z);
  files : gmap pystr (list (list value))
}.

(** ** [search_places] *)

Definition basic_data (p : place) : dict :=
  <[lit "title" := default empty_str (place_title p)]>
  (<[lit "url" := default empty_str (place_url p)]>
  (<[lit "coords" := default (VTuple [empty_str; empty_str]) (place_coords p)]>
  (<[lit "address" := empty_str]>
  (<[lit "website" := empty_str]>
  (<[lit "phone_number" := empty_str]>
  (<[lit "rating" := empty_str]>
  (<[lit "open_hours" := VDict ∅]> ∅))))))).

(** The body of the inner [try]: the detail values, or the basic ones. *)
Definition place_data (p : place) : dict :=
  match get_values p with
  | Ok d => d
  | Raise _ => basic_data p
  end.

(** The [for] loop over the results, with its [break]. *)
Fixpoint populate (results : list place) (max_results : Z)
    (populated_results : list dict) : list dict :=
  match results with
  | [] => populated_results
  | p :: rest =>
      let populated_results := populated_results ++ [place_data p] in
      if (Z.of_nat (length populated_results) >=? max_results)%Z
      then populated_results
      else populate rest max_results populated_results
  end.

(** The body of the outer [try]. *)
Definition search_places_body (E : env) (query : pystr) (page_num max_results : Z)
    : result (list dict) :=
  results ← maps_search E query page_num;
  match results with
  | [] => Ok []
  | _ => Ok (populate results max_results [])
  end.

Definition record_call (query : pystr) (page_num : Z) (w : world) : world :=
  {| search_calls := search_calls w ++ [(query, page_num)]; files := files w |}.

Definition search_places (E : env) (query : pystr) (page_num max_results : Z)
    (w : world) : list dict * world :=
  (match search_places_body E query page_num max_results with
   | Ok populated_results => populated_results
   | Raise _ => []
   end, record_call query page_num w).

(** ** [export_to_csv] *)

Definition weekdays : list pystr :=
  [lit "Monday"; lit "Tuesday"; lit "Wednesday"; lit "Thursday";
   lit "Friday"; lit "Saturday"; lit "Sunday"].

Definition fieldnames : list pystr :=
  [lit "Place Name"; lit "Address"; lit "Latitude"; lit "Longitude";
   lit "Phone Number"; lit "Website"; lit "Rating"; lit "Google Maps URL";
   lit "Current Hours Status"; lit "Monday Hours"; lit "Tuesday Hours";
   lit "Wednesday Hours"; lit "Thursday Hours"; lit "Friday Hours";
   lit "Saturday Hours"; lit "Sunday Hours"].

(** The [row] dictionary built for one result. *)
Definition make_row (r : dict) : result dict :=
  let coords := dict_get r (lit "coords") (VTuple [empty_str; empty_str]) in
  lat ← (if truthy coords then getitem coords 0 else Ok empty_str);
  lon ← (if truthy coords then getitem coords 1 else Ok empty_str);
  let open_hours := dict_get r (lit "open_hours") (VDict ∅) in
  hours_dict ← get_method open_hours (lit "Hours") (VDict ∅);
  current_status ← get_method open_hours (lit "Currently") empty_str;
  monday ← get_method hours_dict (lit "Monday") empty_str;
  tuesday ← get_method hours_dict (lit "Tuesday") empty_str;
  wednesday ← get_method hours_dict (lit "Wednesday") empty_str;
  thursday ← get_method hours_dict (lit "Thursday") empty_str;
  friday ← get_method hours_dict (lit "Friday") empty_str;
  saturday ← get_method hours_dict (lit "Saturday") empty_str;
  sunday ← get_method hours_dict (lit "Sunday") empty_str;
  Ok (<[lit "Place Name" := dict_get r (lit "title") empty_str]>
     (<[lit "Address" := dict_get r (lit "address") empty_str]>
     (<[lit "Latitude" := lat]>
     (<[lit "Longitude" := lon]>
     (<[lit "Phone Number" := dict_get r (lit "phone_number") empty_str]>
     (<[lit "Website" := dict_get r (lit "website") empty_str]>
     (<[lit "Rating" := dict_get r (lit "rating") empty_str]>
     (<[lit "Google Maps URL" := dict_get r (lit "url") empty_str]>
     (<[lit "Current Hours Status" := current_status]>
     (<[lit "Monday Hours" := monday]>
     (<[lit "Tuesday Hours" := tuesday]>
     (<[lit "Wednesday Hours" := wednesday]>
     (<[lit "Thursday Hours" := thursday]>
     (<[lit "Friday Hours" := friday]>
     (<[lit "Saturday Hours" := saturday]>
     (<[lit "Sunday Hours" := sunday]> ∅)))))))))))))))).

(** [DictWriter.writerow]: the values of the row in the order of
    [fieldnames], the empty string for a missing key.  (The keys of a
    [make_row] dictionary are the field names, so the writer's check for
    extra keys never fires.) *)
Definition writerow (row : dict) : list value :=
  List.map (fun name => dict_get row name empty_str) fieldnames.

(** [DictWriter.writeheader]: the field names themselves. *)
Definition header : list value := List.map VStr fieldnames.

(** The line written for one result. *)
Definition csv_row (r : dict) : result (list value) :=
  row ← make_row r; Ok (writerow row).

(** The [for] loop of the exporter: the lines written, and the exception
    that ended the loop if one did.  A line is written when its row could
    be built and the csv writer took it. *)
Fixpoint write_rows (E : env) (results : list dict)
    : list (list value) * option exn :=
  match results with
  | [] => ([], None)
  | r :: rest =>
      match csv_row r with
      | Raise e => ([], Some e)
      | Ok line =>
          match csv_writer_error E line with
          | Some e => ([], Some e)
          | None =>
              let '(lines, err) := write_rows E rest in (line :: lines, err)
          end
      end
  end.

Definition csv_filename (E : env) (query_string : pystr) : pystr :=
  date_stamp E ++ lit "_" ++ sanitize_filename (unicode E) query_string
    ++ lit ".csv".

Definition write_file (filename : pystr) (content : list (list value))
    (w : world) : world :=
  {| search_calls := search_calls w; files := <[filename := content]> (files w) |}.

(** The header is made of the ASCII column names and is always taken by
    the writer; an exception inside the [with] block is caught, the file
    keeps what was written before it. *)
Definition export_to_csv (E : env) (results : list dict) (query_string : pystr)
    (w : world) : option pystr * world :=
  match results with
  | [] => (None, w)
  | _ =>
      let filename := csv_filename E query_string in
      if open_for_writing E filename then
        let '(lines, err) := write_rows E results in
        (match err with None => Some filename | Some _ => None end,
         write_file filename (header :: lines) w)
      else (None, w)
  end.

(** ** [main] *)

(** The namespace [parse_args] returns. *)
Record namespace := {
  query : pystr;
  zip : option pystr;
  distance : option Z;
  max_results : Z;
  page : Z
}.

(** How [main] ends: it returns, or [parser.error] prints the usage
    message and leaves the interpreter with status 2. *)
Inductive outcome :=
| Returned
| UsageError (message : pystr).

Definition exit_status (o : outcome) : Z :=
  match o with
  | Returned => 0
  | UsageError _ => 2
  end.

Definition main (E : env) (args : namespace) (w : world) : outcome * world :=
  if truthy_int (distance args) && negb (truthy_str (zip args)) then
    (UsageError (lit "--distance requires --zip to be specified"), w)
  else if (max_results args <=? 0)%Z then
    (UsageError (lit "--max-results must be a positive number"), w)
  else if (page args <=? 0)%Z then
    (UsageError (lit "--page must be a positive number"), w)
  else
    let formatted_query :=
      format_location_query (query args) (zip args) (distance args) in
    let '(results, w) :=
      search_places E formatted_query (page args) (max_results args) w in
    match results with
    | [] => (Returned, w)
    | _ =>
        let '(csv_file, w) := export_to_csv E results (query args) w in
        (Returned, w)
    end.

(** ** The row as the specification documents it *)

(** The place record of the specification's data model with every field
    populated ([hours] lists the seven weekdays, Monday first). *)
Record PlaceRecord := {
  title : value;
  url : value;
  latitude : value;
  longitude : value;
  address : value;
  website : value;
  phone_number : value;
  rating : value;
  currently : value;
  hours : list value
}.

(** The dictionary [r] carries the place record [p]. *)
Definition populated (r : dict) (p : PlaceRecord) : Prop :=
  r !! lit "title" = Some (title p)
  ∧ r !! lit "url" = Some (url p)
  ∧ r !! lit "coords" = Some (VTuple [latitude p; longitude p])
  ∧ r !! lit "address" = Some (address p)
  ∧ r !! lit "website" = Some (website p)
  ∧ r !! lit "phone_number" = Some (phone_number p)
  ∧ r !! lit "rating" = Some (rating p)
  ∧ ∃ open_hours hours_dict : dict,
      r !! lit "open_hours" = Some (VDict open_hours)
      ∧ open_hours !! lit "Currently" = Some (currently p)
      ∧ open_hours !! lit "Hours" = Some (VDict hours_dict)
      ∧ Forall2 (λ day h, hours_dict !! day = Some h) weekdays (hours p).

(** The documented columns, each with the field it is filled from. *)
Definition documented_row (p : PlaceRecord) : list (pystr * value) :=
  [(lit "Place Name", title p);
   (lit "Address", address p);
   (lit "Latitude", latitude p);
   (lit "Longitude", longitude p);
   (lit "Phone Number", phone_number p);
   (lit "Website", website p);
   (lit "Rating", rating p);
   (lit "Google Maps URL", url p);
   (lit "Current Hours Status", currently p)]
  ++ combine [lit "Monday Hours"; lit "Tuesday Hours"; lit "Wednesday Hours";
              lit "Thursday Hours"; lit "Friday Hours"; lit "Saturday Hours";
              lit "Sunday Hours"] (hours p).



(** ** The shape of a sanitized name *)

(** No hyphen at either end of [t] and no two hyphens in a row. *)
Definition tidy (t : pystr) : Prop :=
  head t ≠ Some hyphen
  ∧ last t ≠ Some hyphen
  ∧ ∀ i : nat, ¬ (t !! i = Some hyphen ∧ t !! S i = Some hyphen).

(** A lowercase ASCII letter, a digit, an underscore or a hyphen. *)
Definition name_char (c : codepoint) : Prop :=
  (97 ≤ c ∧ c ≤ 122) ∨ (48 ≤ c ∧ c ≤ 57) ∨ c = 95 ∨ c = 45.

(** ** Records the exporter can read *)

(** Whether [v[0]] and [v[1]] exist. *)
Definition has_two_items (v : value) : bool :=
  match v with
  | VTuple items | VList items => (2 <=? length items)%nat
  | VStr s => (2 <=? length s)%nat
  | VNone | VBool _ | VInt _ | VFloat _ | VDict _ => false
  end.

Definition is_dict (v : value) : bool :=
  match v with
  | VDict _ => true
  | _ => false
  end.

(** The coordinates of [r] are false, or a sequence of two items at least;
    its hours are a [dict] whose ["Hours"], when present, is a [dict]. *)
Definition readable (r : dict) : bool :=
  let coords := default (VTuple [VStr []; VStr []]) (r !! lit "coords") in
  (negb (truthy coords) || has_two_items coords)
  && match default (VDict ∅) (r !! lit "open_hours") with
     | VDict open_hours => is_dict (default (VDict ∅) (open_hours !! lit "Hours"))
     | _ => false
     end.

(** ** The summary [main] prints after the export *)

(** What one entry of the summary shows: its number, the title, the
    address, and the rating when [result.get('rating')] is true. *)
Record summary_entry := {
  entry_number : Z;
  entry_title : value;
  entry_address : value;
  entry_rating : option value
}.

Definition summary_entry_of (i : Z) (r : dict) : summary_entry := {|
  entry_number := i;
  entry_title := dict_get r (lit "title") (VStr (lit "Unknown"));
  entry_address := dict_get r (lit "address") (VStr (lit "No address available"));
  entry_rating :=
    if truthy (dict_get r (lit "rating") VNone)
    then Some (dict_get r (lit "rating") VNone)
    else None
|}.

(** [enumerate(l, start)]. *)
Fixpoint enumerate {A} (l : list A) (start : Z) : list (Z * A) :=
  match l with
  | [] => []
  | x :: rest => (start, x) :: enumerate rest (start + 1)
  end.

(** The entries shown for [results[:5]], and the number of further
    results announced when there are more than five. *)
Definition summary (results : list dict) : list summary_entry * option Z :=
  ((λ '(i, r), summary_entry_of i r) <$> enumerate (take 5 results) 1%Z,
   if (5 <? Z.of_nat (length results))%Z
   then Some (Z.of_nat (length results) - 5)%Z
   else None).

(** ** Sample data *)

(** The entries of the Unicode Character Database used by the examples:
    U+0130 (capital I with dot above) is a letter whose lowercase mapping
    is U+0069 U+0307; U+0307 (combining dot above) is a mark, not
    alphanumeric. *)
Definition ucd_excerpt : unicode_db := {|
  Py_UNICODE_ISALNUM := fun c => c =? 0x130;
  lower_ucs4 := fun _ c _ => if c =? 0x130 then [0x69; 0x307] else [c]
|}.

(** A fully populated record, as the detail fetch returns it. *)
Definition sample_hours : dict :=
  <[lit "Monday" := VStr (lit "7AM-7PM")]>
  (<[lit "Tuesday" := VStr (lit "7AM-7PM")]>
  (<[lit "Wednesday" := VStr (lit "7AM-7PM")]>
  (<[lit "Thursday" := VStr (lit "7AM-9PM")]>
  (<[lit "Friday" := VStr (lit "7AM-9PM")]>
  (<[lit "Saturday" := VStr (lit "8AM-9PM")]>
  (<[lit "Sunday" := VStr (lit "Closed")]> ∅)))))).

Definition sample_open_hours : dict :=
  <[lit "Currently" := VStr (lit "Open")]>
  (<[lit "Hours" := VDict sample_hours]> ∅).

(** 40.75 and -73.5 as binary64 values, 4.5 likewise *)
Definition sample_lat : value := VFloat (S754_finite false 0x14600000000000 (-47)).
Definition sample_lon : value := VFloat (S754_finite true 0x12600000000000 (-46)).
Definition sample_rating : value := VFloat (S754_finite false 0x12000000000000 (-50)).

Definition sample_record : dict :=
  <[lit "title" := VStr (lit "Blue Door Cafe")]>
  (<[lit "url" := VStr (lit "https://maps.example/blue-door")]>
  (<[lit "coords" := VTuple [sample_lat; sample_lon]]>
  (<[lit "address" := VStr (lit "1 Main St")]>
  (<[lit "website" := VStr (lit "https://bluedoor.example")]>
  (<[lit "phone_number" := VStr (lit "555-0100")]>
  (<[lit "rating" := sample_rating]>
  (<[lit "open_hours" := VDict sample_open_hours]> ∅))))))).

Definition sample_place_record : PlaceRecord := {|
  title := VStr (lit "Blue Door Cafe");
  url := VStr (lit "https://maps.example/blue-door");
  latitude := sample_lat;
  longitude := sample_lon;
  address := VStr (lit "1 Main St");
  website := VStr (lit "https://bluedoor.example");
  phone_number := VStr (lit "555-0100");
  rating := sample_rating;
  currently := VStr (lit "Open");
  hours := [VStr (lit "7AM-7PM"); VStr (lit "7AM-7PM"); VStr (lit "7AM-7PM");
            VStr (lit "7AM-9PM"); VStr (lit "7AM-9PM"); VStr (lit "8AM-9PM");
            VStr (lit "Closed")]
|}.

(** A record whose coordinates are a number: [coords[0]] raises. *)
Definition broken_record : dict := <[lit "coords" := VInt 5]> ∅.


Definition sample_place : place := {|
  place_title := Some (VStr (lit "Blue Door Cafe"));
  place_url := Some (VStr (lit "https://maps.example/blue-door"));
  place_coords := Some (VTuple [sample_lat; sample_lon]);
  get_values := Ok sample_record
|}.

(** A handle whose detail fetch fails and which carries a title only. *)
Definition failing_place : place := {|
  place_title := Some (VStr (lit "Corner Shop"));
  place_url := None;
  place_coords := None;
  get_values := Raise (OtherException (lit "timed out"))
|}.

(** What the csv writer of CPython answers on a UTF-8 file for the rows of
    the examples: a [str] cell that holds a surrogate code point cannot be
    encoded, the row is not written and [UnicodeEncodeError] is raised. *)
Definition is_surrogate (c : codepoint) : bool := (0xD800 <=? c) && (c <=? 0xDFFF).

Definition utf8_writer_error (line : list value) : option exn :=
  if forallb (fun cell =>
                match cell with
                | VStr s => forallb (fun c => negb (is_surrogate c)) s
                | _ => true
                end) line
  then None
  else Some UnicodeEncodeError.

Definition sample_env (answer : result (list place)) : env := {|
  unicode := ucd_excerpt;
  maps_search := fun _ _ => answer;
  date_stamp := lit "20240131";
  open_for_writing := fun _ => true;
  csv_writer_error := utf8_writer_error
|}.

(** A fully populated record whose title is the lone surrogate U+D800. *)
Definition surrogate_record : dict :=
  <[lit "title" := VStr [0xD800]]> sample_record.

Definition surrogate_place_record : PlaceRecord := {|
  title := VStr [0xD800];
  url := url sample_place_record;
  latitude := latitude sample_place_record;
  longitude := longitude sample_place_record;
  address := address sample_place_record;
  website := website sample_place_record;
  phone_number := phone_number sample_place_record;
  rating := rating sample_place_record;
  currently := currently sample_place_record;
  hours := hours sample_place_record
|}.

Definition empty_world : world := {| search_calls := []; files := ∅ |}.

Definition zero_distance_args : namespace := {|
  query := lit "pizza";
  zip := None;
  distance := Some 0%Z;
  max_results := 20;
  page := 1
|}.

Definition distance_without_zip_args : namespace := {|
  query := lit "pizza";
  zip := None;
  distance := Some 10%Z;
  max_results := 20;
  page := 1
|}.

Definition invalid_everything_args : namespace := {|
  query := lit "pizza";
  zip := None;
  distance := Some 10%Z;
  max_results := 0;
  page := 0
|}.

Definition coffee_args : namespace := {|
  query := lit "Coffee Shops!!";
  zip := Some (lit "10001");
  distance := Some 10%Z;
  max_results := 20;
  page := 1
|}.

(** * Properties *)

(** ** Evaluation on the examples of the specification *)

Example sanitize_coffee_shops :
  sanitize_filename ucd_excerpt (lit "Coffee Shops!!") = lit "coffee-shops".
Proof. reflexivity. Qed.

Example sanitize_multi_space :
  sanitize_filename ucd_excerpt (lit "  multi   space ") = lit "multi-space".
Proof. reflexivity. Qed.

Example sanitize_double_hyphen :
  sanitize_filename ucd_excerpt (lit "a--b") = lit "a-b".
Proof. reflexivity. Qed.

(** A run of the whole script: one search, one file with the header and
    a line per place; the second place has lost its details. *)
Example main_sample_run :
  main (sample_env (Ok [sample_place; failing_place]))
    {| query := lit "Coffee Shops!!"; zip := Some (lit "10001");
       distance := None; max_results := 20; page := 1 |} empty_world
  = (Returned,
     {| search_calls := [(lit "Coffee Shops!! near 10001", 1%Z)];
        files := {[ lit "20240131_coffee-shops.csv" :=
          [header;
           (documented_row sample_place_record).*2;
           [VStr (lit "Corner Shop"); VStr []; VStr []; VStr []; VStr [];
            VStr []; VStr []; VStr []; VStr []; VStr []; VStr []; VStr [];
            VStr []; VStr []; VStr []; VStr []]] ]} |}).
Proof. vm_compute. reflexivity. Qed.

(** A record the exporter cannot read ends the loop: the file keeps what
    was written before it and no file name is returned. *)
Example export_to_csv_broken_record :
  export_to_csv (sample_env (Ok [])) [sample_record; broken_record; sample_record]
    (lit "pizza") empty_world
  = (None,
     write_file (lit "20240131_pizza.csv")
       [header; (documented_row sample_place_record).*2] empty_world).
Proof. vm_compute. reflexivity. Qed.

Example format_within :
  format_location_query (lit "hiking trails") (Some (lit "94025")) (Some 10%Z)
  = lit "hiking trails within 10 miles of 94025".
Proof. reflexivity. Qed.

(** ** The query builder *)

Lemma truthy_str_nonempty (z : pystr) : z ≠ [] → truthy_str (Some z) = true.
Proof. by destruct z. Qed.

Lemma truthy_int_nonzero (d : Z) : d ≠ 0%Z → truthy_int (Some d) = true.
Proof. intros Hd. cbn. by apply negb_true_iff, Z.eqb_neq. Qed.

(** An empty ZIP code and a zero distance count as absent. *)
Lemma format_location_query_empty_zip (q : pystr) (distance : option Z) :
  format_location_query q (Some []) distance = q.
Proof. reflexivity. Qed.

Lemma format_location_query_zero_distance (q z : pystr) :
  z ≠ [] →
  format_location_query q (Some z) (Some 0%Z) = q ++ lit " near " ++ z.
Proof. intros Hz. unfold format_location_query. by rewrite truthy_str_nonempty. Qed.

(** C1, as the specification states it, fails: a ZIP code that is present
    but empty is not appended, the base query comes back unchanged. *)
Lemma format_location_query_empty_zip_not_near :
  format_location_query (lit "pizza") (Some []) None
    ≠ lit "pizza" ++ lit " near " ++ [].
Proof. discriminate. Qed.

(** C1 (amended): for every base query [q], the formatter returns [q]
    unchanged when the ZIP code is absent, whatever the distance; returns
    "q near Z" when the ZIP code [Z] is present and not empty and the
    distance is absent; and returns "q within D miles of Z" when the ZIP
    code [Z] is present and not empty and the distance [D] is present and
    not zero (in particular when it is positive). *)
Theorem format_location_query_spec (q zip_code : pystr) (d : Z) :
  zip_code ≠ [] → d ≠ 0%Z →
  (∀ distance, format_location_query q None distance = q)
  ∧ format_location_query q (Some zip_code) None = q ++ lit " near " ++ zip_code
  ∧ format_location_query q (Some zip_code) (Some d)
      = q ++ lit " within " ++ str_of_int d ++ lit " miles of " ++ zip_code.
Proof.
  intros Hz Hd. split; [done|].
  unfold format_location_query.
  rewrite truthy_str_nonempty, truthy_int_nonzero by done.
  done.
Qed.

Lemma format_location_query_spec_witness :
  lit "10001" ≠ [] ∧ 10%Z ≠ 0%Z
  ∧ format_location_query (lit "pizza") (Some (lit "10001")) (Some 10%Z)
      = lit "pizza within 10 miles of 10001".
Proof.
  split; [discriminate|]. split; [lia|].
  apply (format_location_query_spec (lit "pizza") (lit "10001") 10);
    [discriminate | lia].
Defined.

(** ** The search client *)

Section search.
Variable E : env.

(** What the loop leaves in the list: one record per place, cut when the
    list reaches [max_results] (the test comes after the append, so one
    record is kept even for a bound below one). *)
Lemma populate_spec (results : list place) (max_results : Z) (acc : list dict) :
  (Z.of_nat (length acc) < Z.max max_results 1)%Z →
  populate results max_results acc
  = acc ++ take (Z.to_nat (Z.max max_results 1) - length acc)%nat
             (place_data <$> results).
Proof.
  revert acc. induction results as [|p rest IH]; intros acc Hacc; cbn [populate].
  - by rewrite fmap_nil, take_nil, app_nil_r.
  - rewrite fmap_cons. rewrite length_app. cbn [length].
    destruct (Z.geb_spec (Z.of_nat (length acc + 1)) max_results) as [Hge|Hlt].
    + replace (Z.to_nat (Z.max max_results 1) - length acc)%nat with 1%nat by lia.
      cbn. by rewrite take_0.
    + rewrite IH by (rewrite length_app; cbn [length]; lia).
      rewrite length_app. cbn [length]. rewrite <- app_assoc. cbn [app].
      replace (Z.to_nat (Z.max max_results 1) - length acc)%nat
        with (S (Z.to_nat (Z.max max_results 1) - (length acc + 1)))%nat by lia.
      done.
Qed.

Lemma search_places_results (query : pystr) (page_num max_results : Z)
    (w : world) (results : list place) :
  maps_search E query page_num = Ok results →
  (search_places E query page_num max_results w).1
  = take (Z.to_nat (Z.max max_results 1)) (place_data <$> results).
Proof.
  intros Hs. unfold search_places, search_places_body. rewrite Hs.
  destruct results as [|p rest]; cbn [fst mbind result_bind].
  - by rewrite fmap_nil, take_nil.
  - rewrite populate_spec by (cbn; lia).
    cbn [length app]. by rewrite Nat.sub_0_r.
Qed.

Lemma search_places_world (query : pystr) (page_num max_results : Z) (w : world) :
  (search_places E query page_num max_results w).2 = record_call query page_num w.
Proof. reflexivity. Qed.

End search.

(** C3: for every answer of the collaborator and every [max_results] of at
    least one, [search_places] produces at most [max_results] records; when
    the collaborator returns 30 places and [max_results] is 5, it produces
    exactly 5. *)
Theorem search_places_at_most_max_results (E : env) (query : pystr)
    (page_num max_results : Z) (w : world) :
  (1 ≤ max_results)%Z →
  (Z.of_nat (length (search_places E query page_num max_results w).1)
     ≤ max_results)%Z
  ∧ (∀ results,
       maps_search E query page_num = Ok results →
       length results = 30%nat → max_results = 5%Z →
       length (search_places E query page_num max_results w).1 = 5%nat).
Proof.
  intros Hmax. split.
  - destruct (maps_search E query page_num) as [results|e] eqn:Hs.
    + rewrite (search_places_results E _ _ _ _ results Hs).
      rewrite length_take, length_fmap. lia.
    + unfold search_places, search_places_body. rewrite Hs. cbn. lia.
  - intros results Hs Hlen ->.
    rewrite (search_places_results E _ _ _ _ results Hs).
    rewrite length_take, length_fmap, Hlen. reflexivity.
Qed.

Lemma search_places_at_most_max_results_witness :
  (1 ≤ 5)%Z
  ∧ length (search_places (sample_env (Ok (replicate 30 sample_place)))
              (lit "pizza") 1 5 empty_world).1 = 5%nat.
Proof.
  split; [lia|].
  refine (proj2 (search_places_at_most_max_results
                   (sample_env (Ok (replicate 30 sample_place))) (lit "pizza")
                   1 5 empty_world _)
            (replicate 30 sample_place) eq_refl eq_refl eq_refl).
  lia.
Defined.

(** C5: when the detail fetch of a place the loop reaches fails, the record
    appended for it is built from the handle: its title, url and coords
    (the empty string, respectively the pair of empty strings, when the
    handle lacks them), the empty string for address, website,
    phone_number and rating, an empty mapping for open_hours; and the loop
    goes on, the places after it get their records as well. *)
Theorem search_places_detail_failure (E : env) (query : pystr)
    (page_num max_results : Z) (w : world) (results : list place)
    (i : nat) (p : place) (e : exn) :
  maps_search E query page_num = Ok results →
  results !! i = Some p →
  get_values p = Raise e →
  (Z.of_nat i < Z.max max_results 1)%Z →
  let populated_results := (search_places E query page_num max_results w).1 in
  ∃ basic : dict,
    populated_results !! i = Some basic
    ∧ basic !! lit "title" = Some (default (VStr []) (place_title p))
    ∧ basic !! lit "url" = Some (default (VStr []) (place_url p))
    ∧ basic !! lit "coords"
        = Some (default (VTuple [VStr []; VStr []]) (place_coords p))
    ∧ basic !! lit "address" = Some (VStr [])
    ∧ basic !! lit "website" = Some (VStr [])
    ∧ basic !! lit "phone_number" = Some (VStr [])
    ∧ basic !! lit "rating" = Some (VStr [])
    ∧ basic !! lit "open_hours" = Some (VDict ∅)
    ∧ (∀ (j : nat) (p' : place),
         (i < j)%nat → results !! j = Some p' →
         (Z.of_nat j < Z.max max_results 1)%Z →
         populated_results !! j = Some (place_data p')).
Proof.
  intros Hs Hi He Hlt populated_results.
  assert (Hout : ∀ (j : nat) (p' : place),
             results !! j = Some p' → (Z.of_nat j < Z.max max_results 1)%Z →
             populated_results !! j = Some (place_data p')).
  { intros j p' Hj Hjlt. subst populated_results.
    rewrite (search_places_results E _ _ _ _ results Hs).
    rewrite lookup_take_lt by lia.
    by rewrite list_lookup_fmap, Hj. }
  exists (basic_data p). split.
  - rewrite (Hout i p Hi Hlt). unfold place_data. by rewrite He.
  - repeat split; try reflexivity.
    intros j p' _ Hj Hjlt. by apply Hout.
Qed.

Lemma search_places_detail_failure_witness :
  ∃ basic : dict,
    (search_places (sample_env (Ok [failing_place; sample_place]))
       (lit "pizza") 1 20 empty_world).1 !! 0%nat = Some basic
    ∧ basic !! lit "title" = Some (VStr (lit "Corner Shop"))
    ∧ basic !! lit "coords" = Some (VTuple [VStr []; VStr []]).
Proof.
  destruct (search_places_detail_failure
              (sample_env (Ok [failing_place; sample_place])) (lit "pizza")
              1 20 empty_world [failing_place; sample_place] 0 failing_place
              (OtherException (lit "timed out"))
              eq_refl eq_refl eq_refl eq_refl)
    as (basic & H0 & Ht & _ & Hc & _).
  exists basic. repeat split; assumption.
Defined.

(** C6: if the collaborator raises, or returns no results, [search_places]
    returns the empty list: the exception stops there. *)
Theorem search_places_failure_is_empty (E : env) (query : pystr)
    (page_num max_results : Z) (w : world) :
  (∃ e, maps_search E query page_num = Raise e)
  ∨ maps_search E query page_num = Ok [] →
  search_places E query page_num max_results w
  = ([], record_call query page_num w).
Proof.
  intros [[e Hs]|Hs]; unfold search_places, search_places_body;
    by rewrite Hs.
Qed.

Lemma search_places_failure_is_empty_witness :
  search_places (sample_env (Raise (OtherException (lit "blocked"))))
    (lit "pizza") 1 20 empty_world
  = ([], record_call (lit "pizza") 1 empty_world).
Proof.
  apply (search_places_failure_is_empty
           (sample_env (Raise (OtherException (lit "blocked")))) (lit "pizza")
           1 20 empty_world).
  left. by exists (OtherException (lit "blocked")).
Defined.

(** ** The driver *)

(** Past the validation, [main] calls the collaborator exactly once. *)
Lemma main_valid_searches_once (E : env) (args : namespace) (w : world) :
  truthy_int (distance args) && negb (truthy_str (zip args)) = false →
  (0 < max_results args)%Z → (0 < page args)%Z →
  search_calls (main E args w).2
  = search_calls w
      ++ [(format_location_query (query args) (zip args) (distance args),
           page args)].
Proof.
  intros Hd Hm Hp. unfold main. rewrite Hd.
  destruct (Z.leb_spec (max_results args) 0); [lia|].
  destruct (Z.leb_spec (page args) 0); [lia|].
  destruct (search_places E _ (page args) (max_results args) w)
    as [results w1] eqn:Hs.
  pose proof (search_places_world E
    (format_location_query (query args) (zip args) (distance args))
    (page args) (max_results args) w) as Hw.
  rewrite Hs in Hw. cbn in Hw. subst w1.
  destruct results as [|r rest]; [reflexivity|].
  unfold export_to_csv.
  destruct (open_for_writing E _); [|reflexivity].
  by destruct (write_rows E (r :: rest)).
Qed.

(** C4, as the specification states it, fails: a distance of zero given
    without a ZIP code passes the validation and the search is made. *)
Lemma main_zero_distance_without_zip_searches :
  distance zero_distance_args = Some 0%Z ∧ zip zero_distance_args = None
  ∧ main (sample_env (Ok [])) zero_distance_args empty_world
    = (Returned, record_call (lit "pizza") 1 empty_world)
  ∧ search_calls (main (sample_env (Ok [])) zero_distance_args empty_world).2
    = [(lit "pizza", 1%Z)].
Proof. repeat split. Qed.

(** C4 (amended): for every invocation where a distance other than zero is
    given without a ZIP code, or [max_results] is at most 0, or [page] is at
    most 0, the driver stops with a usage error and a non-zero exit status
    before any search: the call log and the files are as they were. *)
Theorem main_rejects_invalid_arguments (E : env) (args : namespace) (w : world) :
  (∃ d, distance args = Some d ∧ d ≠ 0%Z ∧ zip args = None)
  ∨ (max_results args ≤ 0)%Z
  ∨ (page args ≤ 0)%Z →
  ∃ message,
    main E args w = (UsageError message, w)
    ∧ exit_status (UsageError message) ≠ 0%Z.
Proof.
  intros H. unfold main.
  destruct (truthy_int (distance args) && negb (truthy_str (zip args))) eqn:Hd;
    [by eexists|].
  destruct (Z.leb_spec (max_results args) 0) as [Hm|Hm]; [by eexists|].
  destruct (Z.leb_spec (page args) 0) as [Hp|Hp]; [by eexists|].
  destruct H as [(d & Hdist & Hnz & Hzip)|[?|?]]; [|lia|lia].
  rewrite Hdist, Hzip, truthy_int_nonzero in Hd by done. discriminate.
Qed.

Lemma main_rejects_invalid_arguments_witness :
  ∃ message,
    main (sample_env (Ok [sample_place])) distance_without_zip_args empty_world
    = (UsageError message, empty_world)
    ∧ exit_status (UsageError message) ≠ 0%Z.
Proof.
  apply (main_rejects_invalid_arguments (sample_env (Ok [sample_place]))
           distance_without_zip_args empty_world).
  left. exists 10%Z. repeat split. lia.
Defined.

(** ** The exporter *)

(** C7: for every query string, exporting an empty list of results returns
    no file name and leaves the files as they were. *)
Theorem export_to_csv_empty (E : env) (query_string : pystr) (w : world) :
  export_to_csv E [] query_string w = (None, w).
Proof. reflexivity. Qed.

Lemma csv_row_eq (r : dict) (lat lon : value) (open_hours hours_dict : dict) :
  (let coords := default (VTuple [VStr []; VStr []]) (r !! lit "coords") in
   (if truthy coords then getitem coords 0 else Ok (VStr [])) = Ok lat
   ∧ (if truthy coords then getitem coords 1 else Ok (VStr [])) = Ok lon) →
  default (VDict ∅) (r !! lit "open_hours") = VDict open_hours →
  default (VDict ∅) (open_hours !! lit "Hours") = VDict hours_dict →
  csv_row r
  = Ok [default (VStr []) (r !! lit "title");
        default (VStr []) (r !! lit "address");
        lat; lon;
        default (VStr []) (r !! lit "phone_number");
        default (VStr []) (r !! lit "website");
        default (VStr []) (r !! lit "rating");
        default (VStr []) (r !! lit "url");
        default (VStr []) (open_hours !! lit "Currently");
        default (VStr []) (hours_dict !! lit "Monday");
        default (VStr []) (hours_dict !! lit "Tuesday");
        default (VStr []) (hours_dict !! lit "Wednesday");
        default (VStr []) (hours_dict !! lit "Thursday");
        default (VStr []) (hours_dict !! lit "Friday");
        default (VStr []) (hours_dict !! lit "Saturday");
        default (VStr []) (hours_dict !! lit "Sunday")].
Proof.
  intros [Hlat Hlon] Hoh Hh.
  unfold csv_row, make_row, dict_get, empty_str.
  rewrite Hlat, Hlon, Hoh.
  cbn [mbind result_bind get_method]. rewrite Hh.
  cbn [mbind result_bind get_method].
  generalize (default (VStr []) (r !! lit "title")).
  generalize (default (VStr []) (r !! lit "address")).
  generalize (default (VStr []) (r !! lit "phone_number")).
  generalize (default (VStr []) (r !! lit "website")).
  generalize (default (VStr []) (r !! lit "rating")).
  generalize (default (VStr []) (r !! lit "url")).
  generalize (default (VStr []) (open_hours !! lit "Currently")).
  generalize (default (VStr []) (hours_dict !! lit "Monday")).
  generalize (default (VStr []) (hours_dict !! lit "Tuesday")).
  generalize (default (VStr []) (hours_dict !! lit "Wednesday")).
  generalize (default (VStr []) (hours_dict !! lit "Thursday")).
  generalize (default (VStr []) (hours_dict !! lit "Friday")).
  generalize (default (VStr []) (hours_dict !! lit "Saturday")).
  generalize (default (VStr []) (hours_dict !! lit "Sunday")).
  intros. vm_compute. reflexivity.
Qed.

Lemma csv_row_populated (r : dict) (p : PlaceRecord) :
  populated r p → csv_row r = Ok (documented_row p).*2.
Proof.
  intros (Ht & Hu & Hc & Ha & Hw & Hp & Hr & oh & hd & Hoh & Hcur & Hh & Hdays).
  pose proof (Forall2_length _ _ _ Hdays) as Hlen.
  unfold documented_row.
  destruct (hours p) as [|? [|? [|? [|? [|? [|? [|? [|? ?]]]]]]]];
    try discriminate.
  unfold weekdays in Hdays.
  repeat (apply Forall2_cons_1 in Hdays as [? Hdays]).
  rewrite (csv_row_eq r (latitude p) (longitude p) oh hd).
  - cbn [fmap list_fmap app combine snd].
    by repeat match goal with H : _ !! _ = Some _ |- _ => rewrite H; clear H end.
  - by rewrite Hc.
  - by rewrite Hoh.
  - by rewrite Hh.
Qed.

Lemma write_rows_accepted (E : env) (good : list dict)
    (lines : list (list value)) (tail : list dict) :
  Forall2 (λ r line, csv_row r = Ok line ∧ csv_writer_error E line = None)
    good lines →
  write_rows E (good ++ tail)
  = (lines ++ (write_rows E tail).1, (write_rows E tail).2).
Proof.
  induction 1 as [|r line good lines [Hr Hw] _ IH];
    [cbn [app]; by destruct (write_rows E tail)|].
  cbn [app write_rows]. by rewrite Hr, Hw, IH.
Qed.

Lemma populated_lines (E : env) (results : list dict)
    (records : list PlaceRecord) :
  Forall2 populated results records →
  Forall (λ p, csv_writer_error E (documented_row p).*2 = None) records →
  Forall2 (λ r line, csv_row r = Ok line ∧ csv_writer_error E line = None)
    results ((λ p, (documented_row p).*2) <$> records).
Proof.
  induction 1 as [|r p results records Hr _ IH]; intros Hacc; [constructor|].
  apply Forall_cons in Hacc as [Ha Hacc]. rewrite fmap_cons.
  constructor; [|by apply IH]. split; [by apply csv_row_populated|done].
Qed.

Lemma documented_row_columns (r : dict) (p : PlaceRecord) :
  populated r p →
  (documented_row p).*1 = fieldnames ∧ length (documented_row p) = 16%nat.
Proof.
  intros (_ & _ & _ & _ & _ & _ & _ & oh & hd & _ & _ & _ & Hdays).
  apply Forall2_length in Hdays. unfold documented_row.
  destruct (hours p) as [|? [|? [|? [|? [|? [|? [|? [|? ?]]]]]]]];
    try discriminate.
  by split.
Qed.

(** C2, as the specification states it, fails: a record with every field
    populated whose title is a lone surrogate gets no line.  Its row is
    built, but the UTF-8 file cannot encode it: the exporter is left with
    the header alone and returns no file name. *)
Lemma export_to_csv_unencodable_title :
  populated surrogate_record surrogate_place_record
  ∧ csv_row surrogate_record = Ok (documented_row surrogate_place_record).*2
  ∧ (export_to_csv (sample_env (Ok [])) [surrogate_record] (lit "pizza")
       empty_world).1 = None
  ∧ files (export_to_csv (sample_env (Ok [])) [surrogate_record] (lit "pizza")
             empty_world).2 !! lit "20240131_pizza.csv"
    = Some [VStr <$> fieldnames].
Proof.
  split; [|by vm_compute].
  repeat split; try reflexivity.
  exists sample_open_hours, sample_hours.
  repeat split; try reflexivity. repeat constructor.
Qed.

(** C2 (amended): for records with all fields populated, the row handed to
    the csv writer has the 16 documented values in the documented column
    order: title, address, coords[0], coords[1], phone_number, website,
    rating, url, the current hours status, and the hours of Monday to
    Sunday.  When the file can be opened and the csv writer takes every
    such row (none holds a cell the UTF-8 file cannot encode), the exporter
    returns the file name and the file holds the header first and then one
    line per record, in the order of the list. *)
Theorem export_to_csv_full_records (E : env) (results : list dict)
    (records : list PlaceRecord) (query_string : pystr) (w : world) :
  Forall2 populated results records →
  Forall2 (λ r p, csv_row r = Ok (documented_row p).*2) results records
  ∧ Forall (λ p, (documented_row p).*1 = fieldnames
                 ∧ length (documented_row p) = 16%nat) records
  ∧ (results ≠ [] →
     open_for_writing E (csv_filename E query_string) = true →
     Forall (λ p, csv_writer_error E (documented_row p).*2 = None) records →
     (export_to_csv E results query_string w).1
       = Some (csv_filename E query_string)
     ∧ files (export_to_csv E results query_string w).2
         !! csv_filename E query_string
       = Some ((VStr <$> fieldnames)
                 :: ((λ p, (documented_row p).*2) <$> records))).
Proof.
  intros Hpop. split; [|split].
  - eapply Forall2_impl; [exact Hpop|]. apply csv_row_populated.
  - induction Hpop as [|r p ? ? Hr _ IH]; constructor; [|done].
    by apply (documented_row_columns r).
  - intros Hne Hopen Hacc. unfold export_to_csv.
    destruct results as [|r rest]; [done|]. rewrite Hopen.
    pose proof (write_rows_accepted E _ _ [] (populated_lines E _ _ Hpop Hacc))
      as Hw.
    rewrite !app_nil_r in Hw. rewrite Hw. cbn [fst snd write_file files].
    split; [done|]. by rewrite lookup_insert_eq.
Qed.

Lemma sample_record_populated : populated sample_record sample_place_record.
Proof.
  repeat split; try reflexivity.
  exists sample_open_hours, sample_hours.
  repeat split; try reflexivity. repeat constructor.
Defined.

Lemma export_to_csv_full_records_witness :
  (export_to_csv (sample_env (Ok [])) [sample_record] (lit "Coffee Shops!!")
     empty_world).1
  = Some (lit "20240131_coffee-shops.csv")
  ∧ files (export_to_csv (sample_env (Ok [])) [sample_record]
             (lit "Coffee Shops!!") empty_world).2
      !! lit "20240131_coffee-shops.csv"
    = Some [VStr <$> fieldnames; (documented_row sample_place_record).*2].
Proof.
  refine (proj2 (proj2 (export_to_csv_full_records (sample_env (Ok []))
                          [sample_record] [sample_place_record]
                          (lit "Coffee Shops!!") empty_world _)) _ _ _).
  - constructor; [exact sample_record_populated | constructor].
  - discriminate.
  - reflexivity.
  - by repeat constructor.
Defined.





(** ** The file name sanitizer *)

(** Comparisons of code points, turned into linear arithmetic. *)
Ltac char_lia :=
  unfold is_plain, is_word, is_ascii, is_digit, is_upper, is_lower,
    hyphen, space, underscore in *;
  repeat match goal with
         | |- context [if ?b then _ else _] => destruct b eqn:?
         | H : context [if ?b then _ else _] |- _ => destruct b eqn:?
         end;
  try discriminate;
  rewrite ?orb_true_iff, ?andb_true_iff, ?orb_false_iff, ?andb_false_iff,
    ?N.leb_le, ?N.ltb_lt, ?N.eqb_eq, ?N.leb_gt, ?N.ltb_ge, ?N.eqb_neq in *;
  intuition (first [discriminate | lia]).

Lemma starts_with_hyphen_sub_hyphens (s : pystr) :
  starts_with_hyphen (sub_hyphens s) = starts_with_hyphen s.
Proof.
  induction s as [|c rest IH]; [done|]. cbn [sub_hyphens].
  destruct (c =? hyphen) eqn:Hc; cbn [andb]; [|by cbn; rewrite Hc].
  destruct (starts_with_hyphen rest) eqn:Hr; [|by cbn; rewrite Hc].
  rewrite IH. cbn. by rewrite Hc.
Qed.

Lemma sub_hyphens_no_double (s : pystr) : double_hyphen (sub_hyphens s) = false.
Proof.
  induction s as [|c rest IH]; [done|]. cbn [sub_hyphens].
  destruct ((c =? hyphen) && starts_with_hyphen rest) eqn:Hc; [done|].
  cbn [double_hyphen]. by rewrite starts_with_hyphen_sub_hyphens, Hc, IH.
Qed.

Lemma sub_hyphens_id (s : pystr) : double_hyphen s = false → sub_hyphens s = s.
Proof.
  induction s as [|c rest IH]; [done|]. cbn [double_hyphen sub_hyphens].
  intros [Hc Hr]%orb_false_iff. rewrite Hc. by rewrite IH.
Qed.

Lemma lstrip_no_double (s : pystr) :
  double_hyphen s = false → double_hyphen (lstrip s) = false.
Proof.
  induction s as [|c rest IH]; [done|]. intros H. cbn [lstrip].
  destruct (c =? hyphen); [|done].
  apply IH. cbn [double_hyphen] in H. by apply orb_false_iff in H as [_ ?].
Qed.

Lemma starts_with_hyphen_lstrip (s : pystr) : starts_with_hyphen (lstrip s) = false.
Proof.
  induction s as [|c rest IH]; [done|]. cbn [lstrip].
  destruct (c =? hyphen) eqn:Hc; [done|]. cbn. by rewrite Hc.
Qed.

Lemma lstrip_id (s : pystr) : starts_with_hyphen s = false → lstrip s = s.
Proof. destruct s as [|c rest]; [done|]. cbn. by intros ->. Qed.

Lemma rstrip_cons (c : codepoint) (rest : pystr) :
  rstrip (c :: rest)
  = if decide (rstrip rest = []) then (if c =? hyphen then [] else [c])
    else c :: rstrip rest.
Proof. cbn [rstrip]. by destruct (rstrip rest). Qed.

Lemma starts_with_hyphen_rstrip (s : pystr) :
  starts_with_hyphen s = false → starts_with_hyphen (rstrip s) = false.
Proof.
  destruct s as [|c rest]; [done|]. cbn [starts_with_hyphen]. intros Hc.
  rewrite rstrip_cons. case_decide; rewrite ?Hc; cbn; by rewrite ?Hc.
Qed.

Lemma rstrip_no_double (s : pystr) :
  double_hyphen s = false → double_hyphen (rstrip s) = false.
Proof.
  induction s as [|c rest IH]; [done|]. cbn [double_hyphen].
  intros [Hc Hr]%orb_false_iff. rewrite rstrip_cons.
  case_decide; [destruct (c =? hyphen); cbn; by rewrite ?andb_false_r|].
  cbn [double_hyphen]. rewrite (IH Hr), orb_false_r.
  destruct (c =? hyphen); [|done]. cbn in Hc |- *.
  by apply starts_with_hyphen_rstrip.
Qed.

Lemma ends_with_hyphen_rstrip (s : pystr) : ends_with_hyphen (rstrip s) = false.
Proof.
  induction s as [|c rest IH]; [done|]. rewrite rstrip_cons.
  case_decide as Hr.
  - destruct (c =? hyphen) eqn:Hc; [done|]. cbn. by rewrite Hc.
  - destruct (rstrip rest) as [|d r]; [done|]. exact IH.
Qed.

Lemma rstrip_id (s : pystr) : ends_with_hyphen s = false → rstrip s = s.
Proof.
  induction s as [|c rest IH]; [done|]. intros H. rewrite rstrip_cons.
  destruct rest as [|d r].
  - cbn in H |- *. by rewrite H.
  - rewrite (IH H). by case_decide.
Qed.

Lemma Forall_sub_hyphens (P : codepoint → Prop) (s : pystr) :
  Forall P s → Forall P (sub_hyphens s).
Proof.
  induction 1 as [|c rest Hc _ IH]; [done|]. cbn [sub_hyphens].
  destruct (_ && _); [done|by constructor].
Qed.

Lemma Forall_lstrip (P : codepoint → Prop) (s : pystr) :
  Forall P s → Forall P (lstrip s).
Proof.
  induction 1 as [|c rest Hc Hr IH]; [done|]. cbn [lstrip].
  destruct (c =? hyphen); [done|by constructor].
Qed.

Lemma Forall_rstrip (P : codepoint → Prop) (s : pystr) :
  Forall P s → Forall P (rstrip s).
Proof.
  induction 1 as [|c rest Hc Hr IH]; [done|]. rewrite rstrip_cons.
  case_decide; [|by constructor].
  destruct (c =? hyphen); [done|by repeat constructor].
Qed.

(** The three shape properties hold for every string and every table:
    the runs are collapsed and the ends trimmed after the lowercasing. *)
Lemma sanitize_filename_hyphens (U : unicode_db) (s : pystr) :
  double_hyphen (sanitize_filename U s) = false
  ∧ starts_with_hyphen (sanitize_filename U s) = false
  ∧ ends_with_hyphen (sanitize_filename U s) = false.
Proof.
  unfold sanitize_filename, strip. split; [|split].
  - apply rstrip_no_double, lstrip_no_double, sub_hyphens_no_double.
  - apply starts_with_hyphen_rstrip, starts_with_hyphen_lstrip.
  - apply ends_with_hyphen_rstrip.
Qed.

(** On ASCII input the lowercasing is the shift of the capital letters,
    whatever the tables say. *)
Lemma lower_from_ascii (U : unicode_db) (before s : pystr) :
  Forall (λ c, is_ascii c = true) s →
  lower_from U before s = (λ c, if is_upper c then c + 32 else c) <$> s.
Proof.
  intros Hs. revert before.
  induction Hs as [|c rest Hc _ IH]; intros before; [done|].
  cbn [lower_from]. unfold lower_char. by rewrite Hc, IH.
Qed.

Lemma sub_non_word_ascii (U : unicode_db) (s : pystr) :
  Forall (λ c, is_ascii c = true) s →
  Forall (λ c, is_ascii c = true ∧ is_word U c || (c =? hyphen) = true)
    (sub_non_word U (replace space hyphen s)).
Proof.
  intros Hs. apply Forall_forall. intros c Hc.
  apply list_elem_of_In, filter_In in Hc as [Hin Hc]. split; [|done].
  unfold replace in Hin. apply in_map_iff in Hin as (c0 & <- & Hin).
  apply list_elem_of_In in Hin.
  pose proof (proj1 (Forall_forall _ _) Hs c0 Hin) as H0. cbn in H0.
  clear -H0. char_lia.
Qed.

Lemma sanitize_filename_ascii_plain (U : unicode_db) (s : pystr) :
  Forall (λ c, is_ascii c = true) s →
  Forall (λ c, is_plain c = true) (sanitize_filename U s).
Proof.
  intros Hs%(sub_non_word_ascii U). unfold sanitize_filename, strip.
  apply Forall_rstrip, Forall_lstrip, Forall_sub_hyphens.
  unfold lower. rewrite lower_from_ascii.
  - apply Forall_fmap. eapply Forall_impl; [exact Hs|].
    cbn. intros c [Ha Hc]. clear -Ha Hc. char_lia.
  - eapply Forall_impl; [exact Hs|]. by intros c [Ha _].
Qed.

(** A string in sanitized ASCII form is left as it is. *)
Lemma sanitize_filename_fixpoint (U : unicode_db) (t : pystr) :
  Forall (λ c, is_plain c = true) t →
  double_hyphen t = false →
  starts_with_hyphen t = false →
  ends_with_hyphen t = false →
  sanitize_filename U t = t.
Proof.
  intros Hplain Hdouble Hstart Hend. unfold sanitize_filename, strip.
  assert (replace space hyphen t = t) as ->.
  { unfold replace. rewrite <- (map_id t) at 2. apply map_ext_Forall.
    eapply Forall_impl; [exact Hplain|]. cbn. intros c Hc. clear -Hc. char_lia. }
  assert (sub_non_word U t = t) as ->.
  { unfold sub_non_word. apply forallb_filter_id, forallb_forall.
    intros c Hc%list_elem_of_In.
    pose proof (proj1 (Forall_forall _ _) Hplain c Hc) as H0. cbn in H0.
    clear -H0. char_lia. }
  assert (lower U t = t) as ->.
  { unfold lower. rewrite lower_from_ascii.
    - rewrite <- (list_fmap_id t) at 2. apply list_fmap_ext.
      intros i c Hc%list_elem_of_lookup_2.
      pose proof (proj1 (Forall_forall _ _) Hplain c Hc) as H0. cbn in H0.
      clear -H0. char_lia.
    - eapply Forall_impl; [exact Hplain|]. cbn. intros c Hc. clear -Hc. char_lia. }
  by rewrite (sub_hyphens_id t Hdouble), (lstrip_id t Hstart), (rstrip_id t Hend).
Qed.

(** On ASCII input the sanitizer is idempotent. *)
Lemma sanitize_filename_ascii_idempotent (U : unicode_db) (s : pystr) :
  Forall (λ c, is_ascii c = true) s →
  sanitize_filename U (sanitize_filename U s) = sanitize_filename U s.
Proof.
  intros Hs. destruct (sanitize_filename_hyphens U s) as (Hd & Hl & Hr).
  by apply sanitize_filename_fixpoint; [apply sanitize_filename_ascii_plain|..].
Qed.

(** On ASCII input the result is made of word characters and hyphens. *)
Lemma sanitize_filename_ascii_word (U : unicode_db) (s : pystr) :
  Forall (λ c, is_ascii c = true) s →
  Forall (λ c, is_word U c || (c =? hyphen) = true ∧ c ≠ space)
    (sanitize_filename U s).
Proof.
  intros Hs. eapply Forall_impl; [by apply sanitize_filename_ascii_plain|].
  cbn. intros c Hc. clear -Hc. split; char_lia.
Qed.

Lemma lstrip_hyphens (s : pystr) : Forall (λ c, c = hyphen) s → lstrip s = [].
Proof. induction 1 as [|c rest -> _ IH]; [done|]. exact IH. Qed.

(** A query without a word character is sanitized to the empty string. *)
Lemma sanitize_filename_no_word (U : unicode_db) (s : pystr) :
  Forall (λ c, is_word U c = false) s → sanitize_filename U s = [].
Proof.
  intros Hs. unfold sanitize_filename, strip.
  rewrite lstrip_hyphens; [done|].
  apply Forall_sub_hyphens.
  assert (Forall (λ c, c = hyphen) (sub_non_word U (replace space hyphen s))) as Hh.
  { apply Forall_forall. intros c Hc.
    apply list_elem_of_In, filter_In in Hc as [Hin Hc].
    unfold replace in Hin. apply in_map_iff in Hin as (c0 & <- & Hin).
    apply list_elem_of_In in Hin.
    pose proof (proj1 (Forall_forall _ _) Hs c0 Hin) as H0. cbn in H0.
    destruct (N.eqb_spec c0 space) as [->|Hne]; [done|].
    rewrite H0 in Hc. cbn in Hc. by apply N.eqb_eq in Hc. }
  unfold lower. rewrite lower_from_ascii.
  - apply Forall_fmap. eapply Forall_impl; [exact Hh|]. by intros c ->.
  - eapply Forall_impl; [exact Hh|]. by intros c ->.
Qed.

(** The file then carries the date stamp alone. *)
Lemma csv_filename_no_word (E : env) (query_string : pystr) :
  Forall (λ c, is_word (unicode E) c = false) query_string →
  csv_filename E query_string = date_stamp E ++ lit "_.csv".
Proof.
  intros Hq. unfold csv_filename. by rewrite sanitize_filename_no_word.
Qed.

(** C9, on the code: the name of "İstanbul" (U+0130 and then "stanbul")
    keeps the combining dot that the lowercasing of U+0130 brings in, and a
    second pass deletes that dot, so the second pass changes the result of
    the first. *)
Theorem sanitize_filename_twice_differs :
  sanitize_filename ucd_excerpt (0x130 :: lit "stanbul")
    = 0x69 :: 0x307 :: lit "stanbul"
  ∧ sanitize_filename ucd_excerpt
      (sanitize_filename ucd_excerpt (0x130 :: lit "stanbul"))
    = lit "istanbul"
  ∧ sanitize_filename ucd_excerpt
      (sanitize_filename ucd_excerpt (0x130 :: lit "stanbul"))
    ≠ sanitize_filename ucd_excerpt (0x130 :: lit "stanbul").
Proof. repeat split. discriminate. Qed.

(** C10, on the code: the name of "İstanbul" contains U+0307, which is
    neither a word character nor a hyphen; the character is brought in by
    the lowercasing, which runs after the special characters are removed. *)
Theorem sanitize_filename_keeps_combining_mark :
  sanitize_filename ucd_excerpt (0x130 :: lit "stanbul")
    = 0x69 :: 0x307 :: lit "stanbul"
  ∧ is_word ucd_excerpt 0x307 = false
  ∧ (0x307 =? hyphen) = false
  ∧ csv_filename (sample_env (Ok [])) (0x130 :: lit "stanbul")
    = lit "20240131_i" ++ 0x307 :: lit "stanbul.csv".
Proof. repeat split. Qed.

(** * Further properties of the code *)

(** ** [format_location_query] *)

(** X1: the formatted query always begins with the base query, and it is
    the base query itself exactly when the ZIP code is absent or empty; a
    distance alone never changes the query. *)
Theorem format_location_query_extends (q : pystr) (zip_code : option pystr)
    (d : option Z) :
  (∃ suffix, format_location_query q zip_code d = q ++ suffix)
  ∧ (format_location_query q zip_code d = q
     ↔ zip_code = None ∨ zip_code = Some []).
Proof.
  destruct zip_code as [[|c z]|].
  - split; [by exists []; rewrite app_nil_r | split; [by auto | done]].
  - unfold format_location_query. cbn [truthy_str fmt_str].
    destruct (truthy_int d).
    + split; [by eexists|]. split.
      * intros H. rewrite <- (app_nil_r q) in H at 2.
        apply app_inv_head in H. discriminate.
      * by intros [|].
    + split; [by eexists|]. split.
      * intros H. rewrite <- (app_nil_r q) in H at 2.
        apply app_inv_head in H. discriminate.
      * by intros [|].
  - split; [by exists []; rewrite app_nil_r | split; [by auto | done]].
Qed.

(** ** [search_places] *)

(** X2: when the collaborator answers, the records come in the order of
    its places, one per place (the detail values, or the basic ones when
    the fetch failed), cut after the first [max_results] of them, and
    after the first one when [max_results] is below one. *)
Theorem search_places_in_order (E : env) (query : pystr)
    (page_num max_results : Z) (w : world) (results : list place) :
  maps_search E query page_num = Ok results →
  (search_places E query page_num max_results w).1
    = take (Z.to_nat (Z.max max_results 1)) (place_data <$> results)
  ∧ length (search_places E query page_num max_results w).1
    = (length results `min` Z.to_nat (Z.max max_results 1))%nat.
Proof.
  intros Hs. rewrite (search_places_results E _ _ _ _ results Hs).
  split; [done|]. by rewrite length_take, length_fmap, Nat.min_comm.
Qed.

Lemma search_places_in_order_witness :
  (search_places (sample_env (Ok [sample_place; failing_place; sample_place]))
     (lit "pizza") 1 2 empty_world).1
  = [sample_record; basic_data failing_place].
Proof.
  exact (proj1 (search_places_in_order
                  (sample_env (Ok [sample_place; failing_place; sample_place]))
                  (lit "pizza") 1 2 empty_world
                  [sample_place; failing_place; sample_place] eq_refl)).
Defined.

(** X3: the bound is tested after a record is appended, so with
    [max_results] at most 0 and a collaborator that returns places, one
    record is still returned: that of the first place. *)
Theorem search_places_nonpositive_bound (E : env) (query : pystr)
    (page_num max_results : Z) (w : world) (p : place) (rest : list place) :
  (max_results ≤ 0)%Z →
  maps_search E query page_num = Ok (p :: rest) →
  (search_places E query page_num max_results w).1 = [place_data p].
Proof.
  intros Hm Hs. rewrite (search_places_results E _ _ _ _ _ Hs).
  replace (Z.to_nat (Z.max max_results 1)) with 1%nat by lia.
  by rewrite fmap_cons; cbn; rewrite take_0.
Qed.

Lemma search_places_nonpositive_bound_witness :
  (search_places (sample_env (Ok [failing_place; sample_place]))
     (lit "pizza") 1 0 empty_world).1
  = [basic_data failing_place].
Proof.
  apply (search_places_nonpositive_bound
           (sample_env (Ok [failing_place; sample_place])) (lit "pizza") 1 0
           empty_world failing_place [sample_place]); [lia | reflexivity].
Defined.

(** X4: for the record put together for a place whose details could not
    be fetched, the row can always be built when the handle has no
    coordinates or a pair of them (no lookup of the exporter raises on it):
    the row handed to the csv writer carries the title and the url of the
    handle (the empty string when it lacks them), the coordinates, and the
    empty string in every other column. *)
Theorem csv_row_basic_data (t u : option value) (g : result dict)
    (lat lon : value) :
  csv_row (basic_data {| place_title := t; place_url := u;
                         place_coords := None; get_values := g |})
    = Ok [default (VStr []) t; VStr []; VStr []; VStr []; VStr []; VStr [];
          VStr []; default (VStr []) u; VStr []; VStr []; VStr []; VStr [];
          VStr []; VStr []; VStr []; VStr []]
  ∧ csv_row (basic_data {| place_title := t; place_url := u;
                           place_coords := Some (VTuple [lat; lon]);
                           get_values := g |})
    = Ok [default (VStr []) t; VStr []; lat; lon; VStr []; VStr [];
          VStr []; default (VStr []) u; VStr []; VStr []; VStr []; VStr [];
          VStr []; VStr []; VStr []; VStr []].
Proof.
  unfold basic_data, empty_str. cbn [place_title place_url place_coords].
  generalize (default (VStr []) t), (default (VStr []) u). intros vt vu.
  split; vm_compute; reflexivity.
Qed.

(** ** [export_to_csv] *)

Lemma csv_row_length (r : dict) (line : list value) :
  csv_row r = Ok line → length line = 16%nat.
Proof.
  unfold csv_row. destruct (make_row r) as [row|e]; [|discriminate].
  cbn [mbind result_bind]. intros [= <-]. unfold writerow.
  by rewrite length_map.
Qed.

Lemma coords_cells_ok (v : value) :
  negb (truthy v) || has_two_items v = true →
  ∃ lat lon,
    (if truthy v then getitem v 0 else Ok (VStr [])) = Ok lat
    ∧ (if truthy v then getitem v 1 else Ok (VStr [])) = Ok lon.
Proof.
  destruct (truthy v) eqn:Ht; [|by eauto]. cbn [negb orb].
  destruct v as [|b|n|x|[|c1 [|c2 s]]|[|v1 [|v2 l]]|[|v1 [|v2 l]]|d];
    try discriminate; intros _; cbn; eauto.
Qed.

Lemma coords_cells_raise (v : value) :
  negb (truthy v) || has_two_items v = false →
  ∃ e,
    (if truthy v then getitem v 0 else Ok (VStr [])) = Raise e
    ∨ (if truthy v then getitem v 1 else Ok (VStr [])) = Raise e.
Proof.
  destruct (truthy v) eqn:Ht; [|discriminate]. cbn [negb orb].
  destruct v as [|b|n|x|[|c1 [|c2 s]]|[|v1 [|v2 l]]|[|v1 [|v2 l]]|d];
    try discriminate; intros _; cbn; eauto.
Qed.

Lemma csv_row_unreadable (r : dict) :
  readable r = false → ∃ e, csv_row r = Raise e.
Proof.
  unfold readable, csv_row, make_row, dict_get, empty_str.
  set (coords := default (VTuple [VStr []; VStr []]) (r !! lit "coords")).
  set (open_hours := default (VDict ∅) (r !! lit "open_hours")).
  intros [Hc|Hh]%andb_false_iff.
  - destruct (coords_cells_raise coords Hc) as [e [He|He]].
    + rewrite He. by exists e.
    + rewrite He.
      destruct (if truthy coords then getitem coords 0 else Ok (VStr []));
        by eexists.
  - destruct (if truthy coords then getitem coords 0 else Ok (VStr []));
      [|by eexists].
    destruct (if truthy coords then getitem coords 1 else Ok (VStr []));
      [|by eexists].
    cbn [mbind result_bind].
    destruct open_hours as [|b|n|x|s|l|l|oh]; try by eexists.
    cbn [mbind result_bind get_method].
    destruct (default (VDict ∅) (oh !! lit "Hours")); try discriminate;
      by eexists.
Qed.

Lemma csv_row_readable (r : dict) :
  readable r = true → ∃ line, csv_row r = Ok line.
Proof.
  unfold readable. intros [Hc Hh]%andb_true_iff.
  destruct (coords_cells_ok _ Hc) as (lat & lon & Hlat & Hlon).
  destruct (default (VDict ∅) (r !! lit "open_hours")) as [| | | | | | |oh] eqn:Hoh;
    try discriminate.
  destruct (default (VDict ∅) (oh !! lit "Hours")) as [| | | | | | |hd] eqn:Hhd;
    try discriminate.
  eexists. by apply (csv_row_eq r lat lon oh hd).
Qed.

Lemma csv_row_ok_readable (r : dict) (line : list value) :
  csv_row r = Ok line → readable r = true.
Proof.
  intros Hl. destruct (readable r) eqn:Hr; [done|].
  destruct (csv_row_unreadable r Hr) as [e He]. congruence.
Qed.

(** X5: the exporter can write a record exactly when its coordinates are
    false (absent values such as [None], [''] or an empty tuple) or a
    sequence with two items at least, its [open_hours] are a dictionary
    (or missing), and the ["Hours"] inside are a dictionary (or missing);
    any other record makes the line raise, and a line that is written has
    16 values. *)
Theorem csv_row_readable_iff (r : dict) :
  ((∃ line, csv_row r = Ok line) ↔ readable r = true)
  ∧ ((∃ e, csv_row r = Raise e) ↔ readable r = false)
  ∧ (∀ line, csv_row r = Ok line → length line = 16%nat).
Proof.
  split; [|split].
  - split; [|apply csv_row_readable].
    intros [line Hl]. destruct (readable r) eqn:Hr; [done|].
    destruct (csv_row_unreadable r Hr) as [e He]. congruence.
  - split; [|apply csv_row_unreadable].
    intros [e He]. destruct (readable r) eqn:Hr; [|done].
    destruct (csv_row_readable r Hr) as [line Hl]. congruence.
  - apply csv_row_length.
Qed.

Lemma write_rows_spec (E : env) (results : list dict) :
  Forall2 (λ r line, csv_row r = Ok line ∧ csv_writer_error E line = None)
    (take (length (write_rows E results).1) results) (write_rows E results).1
  ∧ match (write_rows E results).2 with
    | None => length (write_rows E results).1 = length results
    | Some e =>
        ∃ r, results !! length (write_rows E results).1 = Some r
             ∧ (csv_row r = Raise e
                ∨ ∃ line, csv_row r = Ok line
                          ∧ csv_writer_error E line = Some e)
    end.
Proof.
  induction results as [|r rest [IH1 IH2]]; [by split; [constructor|]|].
  cbn [write_rows]. destruct (csv_row r) as [line|e] eqn:Hr.
  - destruct (csv_writer_error E line) as [e|] eqn:Hw.
    + cbn. split; [constructor|]. exists r. split; [done|]. right. eauto.
    + destruct (write_rows E rest) as [lines err]. cbn in *. split.
      * by constructor.
      * destruct err; [done|]. by rewrite IH2.
  - cbn. split; [constructor|]. exists r. auto.
Qed.

Lemma write_rows_ok_iff (E : env) (results : list dict) :
  (write_rows E results).2 = None
  ↔ Forall (λ r, ∃ line, csv_row r = Ok line
                         ∧ csv_writer_error E line = None) results.
Proof.
  induction results as [|r rest IH]; [done|]. cbn [write_rows].
  rewrite Forall_cons. destruct (csv_row r) as [line|e] eqn:Hr.
  - destruct (csv_writer_error E line) as [e|] eqn:Hw.
    + cbn. split; [done|]. intros [(line' & [= <-] & Hw') _]. congruence.
    + destruct (write_rows E rest) as [lines err]. cbn in *. rewrite IH.
      split; [|by intros [_ ?]]. intros H. split; [|done]. by exists line.
  - cbn. split; [done|]. by intros [(line & ? & _) _].
Qed.

(** X6: the exporter returns a file name exactly when there is at least
    one result, the file can be opened, and the row of every record can be
    built and is taken by the csv writer; the name is then the date stamp,
    an underscore, the sanitized query and ".csv". *)
Theorem export_to_csv_returns_name (E : env) (results : list dict)
    (query_string : pystr) (w : world) (f : pystr) :
  (export_to_csv E results query_string w).1 = Some f
  ↔ f = date_stamp E ++ lit "_"
          ++ sanitize_filename (unicode E) query_string ++ lit ".csv"
    ∧ results ≠ []
    ∧ open_for_writing E (csv_filename E query_string) = true
    ∧ Forall (λ r, ∃ line, csv_row r = Ok line
                           ∧ csv_writer_error E line = None) results.
Proof.
  unfold export_to_csv. destruct results as [|r rest].
  - cbn. split; [done|]. by intros (_ & ? & _).
  - destruct (open_for_writing E (csv_filename E query_string)).
    + pose proof (write_rows_ok_iff E (r :: rest)) as Hok.
      destruct (write_rows E (r :: rest)) as [lines [e|]]; cbn in *.
      * split; [done|]. intros (_ & _ & _ & H). by apply Hok in H.
      * split.
        -- intros [= <-]. repeat split; [done|]. by apply Hok.
        -- by intros (-> & _).
    + cbn. split; [done|]. by intros (_ & _ & ? & _).
Qed.

Lemma export_to_csv_other_files (E : env) (results : list dict)
    (query_string : pystr) (w : world) (f : pystr) :
  f ≠ csv_filename E query_string →
  files (export_to_csv E results query_string w).2 !! f = files w !! f.
Proof.
  intros Hf. unfold export_to_csv. destruct results as [|r rest]; [done|].
  destruct (open_for_writing E (csv_filename E query_string)); [|done].
  destruct (write_rows E (r :: rest)) as [lines err]. cbn.
  by rewrite lookup_insert_ne.
Qed.

(** X7: the exporter never touches the call log nor any file but the one
    it names, and when that file cannot be opened it changes nothing. *)
Theorem export_to_csv_frame (E : env) (results : list dict)
    (query_string : pystr) (w : world) :
  search_calls (export_to_csv E results query_string w).2 = search_calls w
  ∧ (∀ f, f ≠ csv_filename E query_string →
          files (export_to_csv E results query_string w).2 !! f
          = files w !! f)
  ∧ (open_for_writing E (csv_filename E query_string) = false →
     export_to_csv E results query_string w = (None, w)).
Proof.
  unfold export_to_csv. destruct results as [|r rest]; [done|].
  destruct (open_for_writing E (csv_filename E query_string)).
  - destruct (write_rows E (r :: rest)) as [lines err]. cbn.
    split; [done|]. split; [|done]. intros f Hf. by rewrite lookup_insert_ne.
  - done.
Qed.

Lemma export_to_csv_written (E : env) (results : list dict)
    (query_string : pystr) (w : world) :
  results ≠ [] →
  open_for_writing E (csv_filename E query_string) = true →
  ∃ lines : list (list value),
    files (export_to_csv E results query_string w).2
      !! csv_filename E query_string
    = Some ((VStr <$> fieldnames) :: lines)
    ∧ length fieldnames = 16%nat
    ∧ Forall (λ line, length line = 16%nat) lines
    ∧ Forall2 (λ r line, csv_row r = Ok line)
        (take (length lines) results) lines
    ∧ (length lines ≤ length results)%nat
    ∧ (is_Some (export_to_csv E results query_string w).1
       ↔ length lines = length results).
Proof.
  intros Hne Hopen. unfold export_to_csv.
  destruct results as [|r rest]; [done|]. rewrite Hopen.
  destruct (write_rows_spec E (r :: rest)) as [Hrows Herr].
  destruct (write_rows E (r :: rest)) as [lines err]. cbn [fst snd] in *.
  assert (Forall2 (λ r line, csv_row r = Ok line)
            (take (length lines) (r :: rest)) lines) as Hbuilt.
  { eapply Forall2_impl; [exact Hrows|]. by intros ? ? [? _]. }
  exists lines. cbn [write_file files]. rewrite lookup_insert_eq.
  split; [done|]. split; [done|]. split; [|split; [done|]].
  - clear -Hbuilt. revert Hbuilt. generalize (take (length lines) (r :: rest)).
    induction 1 as [|? ? ? ? Hl _ IH]; constructor; [|done].
    by apply csv_row_length in Hl.
  - destruct err as [e|].
    + destruct Herr as (r' & Hr' & _). apply lookup_lt_Some in Hr'.
      split; [lia|]. split; [by intros [? [=]]|lia].
    + split; [lia|]. by split; [|eexists].
Qed.

(** X8: when there are results and the file can be opened, the file is
    replaced, whatever it held: it begins with the 16 column names, each
    line after them has 16 values, the lines are those of the first
    records in their order, and a file name is returned exactly when there
    is a line for every record. *)
Theorem export_to_csv_file (E : env) (results : list dict)
    (query_string : pystr) (w : world) :
  results ≠ [] →
  open_for_writing E (csv_filename E query_string) = true →
  ∃ lines : list (list value),
    files (export_to_csv E results query_string w).2
      !! csv_filename E query_string
    = Some ((VStr <$> fieldnames) :: lines)
    ∧ length fieldnames = 16%nat
    ∧ Forall (λ line, length line = 16%nat) lines
    ∧ Forall2 (λ r line, csv_row r = Ok line)
        (take (length lines) results) lines
    ∧ (length lines ≤ length results)%nat
    ∧ (is_Some (export_to_csv E results query_string w).1
       ↔ length lines = length results).
Proof. apply export_to_csv_written. Qed.

Lemma export_to_csv_file_witness :
  ∃ lines : list (list value),
    files (export_to_csv (sample_env (Ok []))
             [sample_record; broken_record; sample_record] (lit "pizza")
             (write_file (lit "20240131_pizza.csv") [] empty_world)).2
      !! lit "20240131_pizza.csv"
    = Some ((VStr <$> fieldnames) :: lines)
    ∧ length lines = 1%nat.
Proof.
  destruct (export_to_csv_file (sample_env (Ok []))
              [sample_record; broken_record; sample_record] (lit "pizza")
              (write_file (lit "20240131_pizza.csv") [] empty_world))
    as (lines & Hfile & _); [discriminate | reflexivity |].
  exists lines. split; [exact Hfile|].
  vm_compute in Hfile. by injection Hfile as <-.
Defined.

(** X9: the export ends at the first record whose row cannot be built or
    is refused by the csv writer: the exporter returns no file name, and
    the file holds the header and the lines of the records before that
    one, none of the records after it. *)
Theorem export_to_csv_stops_at_failure (E : env) (good : list dict)
    (lines : list (list value)) (bad : dict) (rest : list dict)
    (query_string : pystr) (w : world) :
  Forall2 (λ r line, csv_row r = Ok line ∧ csv_writer_error E line = None)
    good lines →
  readable bad = false
  ∨ (∃ line e, csv_row bad = Ok line ∧ csv_writer_error E line = Some e) →
  open_for_writing E (csv_filename E query_string) = true →
  (export_to_csv E (good ++ bad :: rest) query_string w).1 = None
  ∧ files (export_to_csv E (good ++ bad :: rest) query_string w).2
      !! csv_filename E query_string
    = Some ((VStr <$> fieldnames) :: lines).
Proof.
  intros Hgood Hbad Hopen. unfold export_to_csv.
  destruct (good ++ bad :: rest) eqn:Hall; [by destruct good|].
  rewrite <- Hall, Hopen, (write_rows_accepted E good lines _ Hgood).
  assert (write_rows E (bad :: rest) = ([], (write_rows E (bad :: rest)).2)
          ∧ (write_rows E (bad :: rest)).2 ≠ None) as [-> Herr].
  { cbn [write_rows]. destruct Hbad as [Hbad|(line & e & -> & ->)]; [|done].
    by destruct (csv_row_unreadable bad Hbad) as [e ->]. }
  cbn [fst snd]. rewrite app_nil_r.
  destruct (write_rows E (bad :: rest)).2; [|done].
  cbn [fst snd write_file files]. split; [done|]. by rewrite lookup_insert_eq.
Qed.

Lemma export_to_csv_stops_at_failure_witness :
  (export_to_csv (sample_env (Ok []))
     ([sample_record] ++ surrogate_record :: [sample_record]) (lit "pizza")
     empty_world).1 = None
  ∧ files (export_to_csv (sample_env (Ok []))
             ([sample_record] ++ surrogate_record :: [sample_record])
             (lit "pizza") empty_world).2 !! lit "20240131_pizza.csv"
    = Some [VStr <$> fieldnames; (documented_row sample_place_record).*2].
Proof.
  apply (export_to_csv_stops_at_failure (sample_env (Ok []))
           [sample_record] [(documented_row sample_place_record).*2]
           surrogate_record [sample_record] (lit "pizza") empty_world).
  - by repeat constructor.
  - right. exists (documented_row surrogate_place_record).*2, UnicodeEncodeError.
    by split.
  - reflexivity.
Defined.

(** ** [main] *)

Lemma distance_check_true (args : namespace) :
  truthy_int (distance args) && negb (truthy_str (zip args)) = true
  ↔ ∃ d, distance args = Some d ∧ d ≠ 0%Z
         ∧ (zip args = None ∨ zip args = Some []).
Proof.
  destruct (distance args) as [d|]; cbn.
  - destruct (Z.eqb_spec d 0) as [->|Hd]; cbn.
    + split; [done|]. by intros (? & [= <-] & ? & _).
    + destruct (zip args) as [[|c z]|]; cbn.
      * split; [|done]. intros _. exists d. auto.
      * split; [done|]. by intros (? & _ & _ & [|]).
      * split; [|done]. intros _. exists d. auto.
  - split; [done|]. by intros (? & ? & _).
Qed.

Lemma main_returned_valid (E : env) (args : namespace) (w : world) :
  (main E args w).1 = Returned →
  truthy_int (distance args) && negb (truthy_str (zip args)) = false
  ∧ (0 < max_results args)%Z ∧ (0 < page args)%Z.
Proof.
  unfold main.
  destruct (truthy_int (distance args) && negb (truthy_str (zip args)));
    [done|].
  destruct (Z.leb_spec (max_results args) 0); [done|].
  destruct (Z.leb_spec (page args) 0); [done|]. done.
Qed.

Lemma main_valid_eq (E : env) (args : namespace) (w : world) :
  (main E args w).1 = Returned →
  main E args w
  = (Returned,
     let formatted_query :=
       format_location_query (query args) (zip args) (distance args) in
     let results :=
       (search_places E formatted_query (page args) (max_results args) w).1 in
     (export_to_csv E results (query args)
        (record_call formatted_query (page args) w)).2).
Proof.
  intros (Hd & Hm & Hp)%main_returned_valid. unfold main. rewrite Hd.
  destruct (Z.leb_spec (max_results args) 0); [lia|].
  destruct (Z.leb_spec (page args) 0); [lia|].
  unfold search_places. cbn [fst snd].
  destruct (match search_places_body E _ (page args) (max_results args) with
            | Ok populated_results => populated_results
            | Raise _ => []
            end) as [|r rest]; [done|].
  by destruct (export_to_csv E (r :: rest) (query args) _).
Qed.

Lemma main_usage_error_world (E : env) (args : namespace) (w : world)
    (message : pystr) :
  (main E args w).1 = UsageError message → (main E args w).2 = w.
Proof.
  unfold main.
  destruct (truthy_int (distance args) && negb (truthy_str (zip args)));
    [done|].
  destruct (Z.leb_spec (max_results args) 0); [done|].
  destruct (Z.leb_spec (page args) 0); [done|].
  destruct (search_places E _ (page args) (max_results args) w)
    as [[|r rest] w1]; [done|].
  by destruct (export_to_csv E (r :: rest) (query args) w1).
Qed.

(** X10: [main] ends with status 0 or with status 2; it ends with status 2
    exactly when a distance other than zero comes without a ZIP code (an
    empty one counts as none), or [max_results] is at most 0, or [page] is
    at most 0, and then the call log and the files are as they were.  A
    failed search or a failed export do not change the status. *)
Theorem main_exit_status (E : env) (args : namespace) (w : world) :
  (exit_status (main E args w).1 = 0%Z ∨ exit_status (main E args w).1 = 2%Z)
  ∧ (exit_status (main E args w).1 = 2%Z
     ↔ (∃ d, distance args = Some d ∧ d ≠ 0%Z
             ∧ (zip args = None ∨ zip args = Some []))
       ∨ (max_results args ≤ 0)%Z
       ∨ (page args ≤ 0)%Z)
  ∧ (exit_status (main E args w).1 = 2%Z → (main E args w).2 = w).
Proof.
  split; [by destruct (main E args w).1; auto|].
  rewrite <- distance_check_true.
  destruct (main E args w).1 eqn:Hmain.
  - apply main_returned_valid in Hmain as (Hd & Hm & Hp). cbn.
    split; [|done]. split; [done|]. rewrite Hd. intros [|[|]]; [done|lia|lia].
  - revert Hmain. unfold main.
    destruct (truthy_int (distance args) && negb (truthy_str (zip args)));
      [by cbn; intros _; split; [split; [left|]|]|].
    destruct (Z.leb_spec (max_results args) 0);
      [by cbn; intros _; split; [split; [right; left|]|]|].
    destruct (Z.leb_spec (page args) 0);
      [by cbn; intros _; split; [split; [right; right|]|]|].
    destruct (search_places E _ (page args) (max_results args) w)
      as [[|r rest] w1]; [done|].
    by destruct (export_to_csv E (r :: rest) (query args) w1).
Qed.

(** X11: the usage message names the first check that fails, in the order
    distance, max-results, page. *)
Theorem main_usage_message (E : env) (args : namespace) (w : world) :
  let bad_distance :=
    ∃ d, distance args = Some d ∧ d ≠ 0%Z
         ∧ (zip args = None ∨ zip args = Some []) in
  (bad_distance →
   (main E args w).1
   = UsageError (lit "--distance requires --zip to be specified"))
  ∧ (¬ bad_distance → (max_results args ≤ 0)%Z →
     (main E args w).1
     = UsageError (lit "--max-results must be a positive number"))
  ∧ (¬ bad_distance → (0 < max_results args)%Z → (page args ≤ 0)%Z →
     (main E args w).1
     = UsageError (lit "--page must be a positive number")).
Proof.
  cbn zeta. rewrite <- distance_check_true. unfold main.
  destruct (truthy_int (distance args) && negb (truthy_str (zip args)));
    [by repeat split|].
  destruct (Z.leb_spec (max_results args) 0).
  { split; [done|]. split; [done|]. intros; lia. }
  destruct (Z.leb_spec (page args) 0).
  { split; [done|]. split; [intros; lia|done]. }
  split; [done|]. split; intros; lia.
Qed.

Example main_usage_message_first :
  (main (sample_env (Ok [])) invalid_everything_args empty_world).1
  = UsageError (lit "--distance requires --zip to be specified").
Proof. reflexivity. Qed.

(** X12: whenever [main] returns, it has called the collaborator exactly
    once, with the formatted query and the page asked for. *)
Theorem main_searches_once (E : env) (args : namespace) (w : world) :
  (main E args w).1 = Returned →
  search_calls (main E args w).2
  = search_calls w
      ++ [(format_location_query (query args) (zip args) (distance args),
           page args)].
Proof.
  intros (Hd & Hm & Hp)%main_returned_valid.
  by apply main_valid_searches_once.
Qed.

Lemma main_searches_once_witness :
  search_calls (main (sample_env (Ok [sample_place])) coffee_args empty_world).2
  = [(lit "Coffee Shops!! within 10 miles of 10001", 1%Z)].
Proof.
  exact (main_searches_once (sample_env (Ok [sample_place])) coffee_args
           empty_world eq_refl).
Defined.

(** X13: [main] leaves every file alone but the one named after the date
    and the query as typed: the ZIP code and the distance are not part of
    the name. *)
Theorem main_touches_one_file (E : env) (args : namespace) (w : world)
    (f : pystr) :
  f ≠ date_stamp E ++ lit "_"
        ++ sanitize_filename (unicode E) (query args) ++ lit ".csv" →
  files (main E args w).2 !! f = files w !! f.
Proof.
  intros Hf. destruct (main E args w).1 eqn:Hmain.
  - rewrite (main_valid_eq E args w Hmain). cbn [snd].
    by rewrite (export_to_csv_other_files E _ (query args) _ f Hf).
  - by rewrite (main_usage_error_world E args w message Hmain).
Qed.

Lemma main_touches_one_file_witness :
  files (main (sample_env (Ok [sample_place])) coffee_args
           (write_file (lit "notes.txt") [] empty_world)).2 !! lit "notes.txt"
  = Some [].
Proof.
  refine (main_touches_one_file (sample_env (Ok [sample_place])) coffee_args
            (write_file (lit "notes.txt") [] empty_world) (lit "notes.txt") _).
  discriminate.
Defined.

(** X14: when the search fails or finds nothing, [main] still returns but
    writes no file. *)
Theorem main_no_results_no_file (E : env) (args : namespace) (w : world) :
  (main E args w).1 = Returned →
  (∃ e, maps_search E
          (format_location_query (query args) (zip args) (distance args))
          (page args) = Raise e)
  ∨ maps_search E
      (format_location_query (query args) (zip args) (distance args))
      (page args) = Ok [] →
  files (main E args w).2 = files w.
Proof.
  intros Hmain Hs. rewrite (main_valid_eq E args w Hmain). cbn [snd].
  assert ((search_places E
             (format_location_query (query args) (zip args) (distance args))
             (page args) (max_results args) w).1 = []) as ->.
  { unfold search_places, search_places_body. by destruct Hs as [[e ->]| ->]. }
  reflexivity.
Qed.

Lemma main_no_results_no_file_witness :
  files (main (sample_env (Raise (OtherException (lit "blocked")))) coffee_args
           empty_world).2
  = ∅.
Proof.
  apply (main_no_results_no_file
           (sample_env (Raise (OtherException (lit "blocked")))) coffee_args
           empty_world eq_refl).
  left. by eexists.
Defined.

(** X15: when the collaborator returns places and the file can be opened,
    the file [main] leaves behind has the header and at most [max_results]
    lines after it, never more than there were places. *)
Theorem main_file_within_bound (E : env) (args : namespace) (w : world)
    (results : list place) :
  (main E args w).1 = Returned →
  maps_search E
    (format_location_query (query args) (zip args) (distance args))
    (page args) = Ok results →
  results ≠ [] →
  open_for_writing E (csv_filename E (query args)) = true →
  ∃ lines : list (list value),
    files (main E args w).2 !! csv_filename E (query args)
    = Some ((VStr <$> fieldnames) :: lines)
    ∧ (Z.of_nat (length lines) ≤ max_results args)%Z
    ∧ (length lines ≤ length results)%nat.
Proof.
  intros Hmain Hs Hne Hopen.
  pose proof (main_returned_valid E args w Hmain) as (_ & Hm & _).
  rewrite (main_valid_eq E args w Hmain). cbn [snd].
  pose proof (search_places_results E _ _ (max_results args) w results Hs)
    as Hrs.
  set (rs := (search_places E _ (page args) (max_results args) w).1) in *.
  assert (length rs
          = (length results `min` Z.to_nat (Z.max (max_results args) 1))%nat)
    as Hlen by (by rewrite Hrs, length_take, length_fmap, Nat.min_comm).
  assert (rs ≠ []) as Hrne.
  { intros H0. rewrite H0 in Hlen. destruct results; [done|].
    cbn [length] in Hlen. lia. }
  destruct (export_to_csv_written E rs (query args)
              (record_call
                 (format_location_query (query args) (zip args) (distance args))
                 (page args) w) Hrne Hopen)
    as (lines & Hfile & _ & _ & _ & Hle & _).
  exists lines. split; [done|]. lia.
Qed.

Lemma main_file_within_bound_witness :
  ∃ lines : list (list value),
    files (main (sample_env (Ok (replicate 30 sample_place)))
             {| query := lit "pizza"; zip := None; distance := None;
                max_results := 5; page := 1 |} empty_world).2
      !! lit "20240131_pizza.csv"
    = Some ((VStr <$> fieldnames) :: lines)
    ∧ (Z.of_nat (length lines) ≤ 5)%Z
    ∧ (length lines ≤ 30)%nat.
Proof.
  refine (main_file_within_bound (sample_env (Ok (replicate 30 sample_place)))
            {| query := lit "pizza"; zip := None; distance := None;
               max_results := 5; page := 1 |} empty_world
            (replicate 30 sample_place) eq_refl eq_refl _ eq_refl).
  discriminate.
Defined.

Lemma enumerate_lookup {A} (l : list A) (start : Z) (i : nat) :
  enumerate l start !! i = (λ x, (start + Z.of_nat i, x)%Z) <$> l !! i.
Proof.
  revert start i. induction l as [|x rest IH]; intros start [|i]; [done..| |].
  - cbn. by rewrite Z.add_0_r.
  - cbn [enumerate]. rewrite !lookup_cons. rewrite IH.
    destruct (rest !! i); [|done]. cbn. do 2 f_equal. lia.
Qed.

Lemma enumerate_length {A} (l : list A) (start : Z) :
  length (enumerate l start) = length l.
Proof. revert start. induction l as [|x rest IH]; intros; cbn; by rewrite ?IH. Qed.

(** X16: the summary shows the first five results at most, in order and
    numbered from 1, each with its title and address (a placeholder when
    the record lacks them) and with its rating only when the rating is
    true; it announces further results exactly when there are more than
    five, and then the entries shown and the number announced add up to the
    number of results. *)
Theorem summary_counts (results : list dict) :
  length (summary results).1 = (length results `min` 5)%nat
  ∧ (∀ (i : nat) (r : dict),
       (i < 5)%nat → results !! i = Some r →
       (summary results).1 !! i
       = Some {| entry_number := Z.of_nat i + 1;
                 entry_title := default (VStr (lit "Unknown")) (r !! lit "title");
                 entry_address :=
                   default (VStr (lit "No address available"))
                     (r !! lit "address");
                 entry_rating :=
                   match r !! lit "rating" with
                   | Some v => if truthy v then Some v else None
                   | None => None
                   end |})
  ∧ ((summary results).2 = None ↔ (length results ≤ 5)%nat)
  ∧ (∀ n, (summary results).2 = Some n →
          (Z.of_nat (length (summary results).1) + n
           = Z.of_nat (length results))%Z).
Proof.
  unfold summary. cbn [fst snd]. split; [|split; [|split]].
  - by rewrite length_fmap, enumerate_length, length_take, Nat.min_comm.
  - intros i r Hi Hr.
    rewrite list_lookup_fmap, enumerate_lookup, lookup_take_lt, Hr by done.
    cbn [fmap option_fmap option_map]. unfold summary_entry_of, dict_get.
    replace (1 + Z.of_nat i)%Z with (Z.of_nat i + 1)%Z by lia.
    by destruct (r !! lit "rating").
  - destruct (Z.ltb_spec 5 (Z.of_nat (length results))); split; (done || lia).
  - intros n. rewrite length_fmap, enumerate_length, length_take.
    destruct (Z.ltb_spec 5 (Z.of_nat (length results))); [|done].
    intros [= <-]. lia.
Qed.

(** ** [sanitize_filename] *)

Lemma starts_with_hyphen_head (t : pystr) :
  starts_with_hyphen t = false ↔ head t ≠ Some hyphen.
Proof.
  destruct t as [|c t]; cbn; [done|].
  rewrite N.eqb_neq. split; [by intros ? [=]|by intros ? ->].
Qed.

Lemma ends_with_hyphen_last (t : pystr) :
  ends_with_hyphen t = false ↔ last t ≠ Some hyphen.
Proof.
  induction t as [|c [|d t] IH]; [done| |exact IH].
  cbn. rewrite N.eqb_neq. split; [by intros ? [=]|by intros ? ->].
Qed.

Lemma double_hyphen_lookup (t : pystr) :
  double_hyphen t = false
  ↔ ∀ i : nat, ¬ (t !! i = Some hyphen ∧ t !! S i = Some hyphen).
Proof.
  induction t as [|c t IH]; [by split; [intros _ i [[=] _]|]|].
  cbn [double_hyphen]. rewrite orb_false_iff, IH, andb_false_iff. split.
  - intros [Hc Ht] [|i]; [|apply Ht]. cbn. intros [[= ->] Hd].
    destruct Hc as [Hc|Hc]; [done|]. destruct t as [|d t]; [done|].
    cbn in Hc, Hd. injection Hd as ->. done.
  - intros H. split; [|intros i; apply (H (S i))].
    destruct (N.eqb_spec c hyphen) as [->|]; [right|by left].
    destruct t as [|d t]; [done|]. cbn.
    apply N.eqb_neq. intros ->. by apply (H 0%nat).
Qed.

Lemma tidy_iff (t : pystr) :
  tidy t
  ↔ starts_with_hyphen t = false ∧ ends_with_hyphen t = false
    ∧ double_hyphen t = false.
Proof.
  unfold tidy.
  rewrite starts_with_hyphen_head, ends_with_hyphen_last, double_hyphen_lookup.
  done.
Qed.

Lemma is_ascii_lt (c : codepoint) : is_ascii c = true ↔ c < 128.
Proof. unfold is_ascii. apply N.ltb_lt. Qed.

Lemma is_plain_name_char (c : codepoint) : is_plain c = true ↔ name_char c.
Proof. unfold name_char. split; intros H; char_lia. Qed.

Lemma Forall_ascii (s : pystr) :
  Forall (λ c, c < 128) s → Forall (λ c, is_ascii c = true) s.
Proof.
  intros Hs. eapply Forall_impl; [exact Hs|]. intros c. apply is_ascii_lt.
Qed.

(** X17: whatever the string and whatever the Unicode tables, the
    sanitized name has no hyphen at either end and no two hyphens in a
    row. *)
Theorem sanitize_filename_tidy (U : unicode_db) (s : pystr) :
  tidy (sanitize_filename U s).
Proof.
  apply tidy_iff. destruct (sanitize_filename_hyphens U s) as (? & ? & ?).
  done.
Qed.

(** X18: the name of an ASCII string is made of lowercase letters, digits,
    underscores and hyphens only. *)
Theorem sanitize_filename_ascii_charset (U : unicode_db) (s : pystr) :
  Forall (λ c, c < 128) s →
  Forall name_char (sanitize_filename U s).
Proof.
  intros Hs%Forall_ascii%(sanitize_filename_ascii_plain U).
  eapply Forall_impl; [exact Hs|]. intros c. apply is_plain_name_char.
Qed.

Lemma sanitize_filename_ascii_charset_witness :
  Forall name_char (sanitize_filename ucd_excerpt (lit "Joe's Pizza & Pasta")).
Proof.
  apply (sanitize_filename_ascii_charset ucd_excerpt (lit "Joe's Pizza & Pasta")).
  repeat constructor.
Defined.

(** X19: on an ASCII string a second pass of the sanitizer changes
    nothing. *)
Theorem sanitize_filename_idempotent_on_ascii (U : unicode_db) (s : pystr) :
  Forall (λ c, c < 128) s →
  sanitize_filename U (sanitize_filename U s) = sanitize_filename U s.
Proof. intros Hs%Forall_ascii. by apply sanitize_filename_ascii_idempotent. Qed.

Lemma sanitize_filename_idempotent_on_ascii_witness :
  sanitize_filename ucd_excerpt
    (sanitize_filename ucd_excerpt (lit "  Coffee -- Shops!! "))
  = sanitize_filename ucd_excerpt (lit "  Coffee -- Shops!! ").
Proof.
  apply (sanitize_filename_idempotent_on_ascii ucd_excerpt
           (lit "  Coffee -- Shops!! ")).
  repeat constructor.
Defined.

(** X20: the ASCII strings the sanitizer leaves as they are are exactly the
    tidy strings of lowercase letters, digits, underscores and hyphens. *)
Theorem sanitize_filename_fixed_points (U : unicode_db) (t : pystr) :
  Forall (λ c, c < 128) t →
  sanitize_filename U t = t ↔ Forall name_char t ∧ tidy t.
Proof.
  intros Ht. split.
  - intros Heq. rewrite <- Heq. split.
    + apply Forall_ascii, (sanitize_filename_ascii_plain U) in Ht.
      eapply Forall_impl; [exact Ht|]. intros c. apply is_plain_name_char.
    + apply tidy_iff. destruct (sanitize_filename_hyphens U t) as (? & ? & ?).
      done.
  - intros [Hc (Hs & He & Hd)%tidy_iff].
    apply sanitize_filename_fixpoint; [|done..].
    eapply Forall_impl; [exact Hc|]. intros c. apply is_plain_name_char.
Qed.

Lemma sanitize_filename_fixed_points_witness :
  sanitize_filename ucd_excerpt (lit "coffee-shops_2") = lit "coffee-shops_2"
  ↔ Forall name_char (lit "coffee-shops_2") ∧ tidy (lit "coffee-shops_2").
Proof.
  apply (sanitize_filename_fixed_points ucd_excerpt (lit "coffee-shops_2")).
  repeat constructor.
Defined.

Lemma sub_hyphens_keeps (c : codepoint) (s : pystr) :
  c ∈ s → c ≠ hyphen → c ∈ sub_hyphens s.
Proof.
  intros Hin Hc. induction s as [|d rest IH]; [done|]. cbn [sub_hyphens].
  apply elem_of_cons in Hin as [->|Hin].
  - apply N.eqb_neq in Hc. rewrite Hc. cbn. by left.
  - destruct (_ && _); [by apply IH|]. right. by apply IH.
Qed.

Lemma lstrip_keeps (c : codepoint) (s : pystr) :
  c ∈ s → c ≠ hyphen → c ∈ lstrip s.
Proof.
  intros Hin Hc. induction s as [|d rest IH]; [done|]. cbn [lstrip].
  destruct (N.eqb_spec d hyphen) as [->|]; [|done].
  apply elem_of_cons in Hin as [->|Hin]; [done|]. by apply IH.
Qed.

Lemma rstrip_keeps (c : codepoint) (s : pystr) :
  c ∈ s → c ≠ hyphen → c ∈ rstrip s.
Proof.
  intros Hin Hc. induction s as [|d rest IH]; [done|]. rewrite rstrip_cons.
  apply elem_of_cons in Hin as [->|Hin].
  - case_decide; [|by left]. apply N.eqb_neq in Hc. rewrite Hc. by left.
  - specialize (IH Hin). case_decide as Hr; [|by right].
    rewrite Hr in IH. by apply elem_of_nil in IH.
Qed.

Lemma sanitize_filename_keeps_word (U : unicode_db) (s : pystr) (c : codepoint) :
  Forall (λ c, is_ascii c = true) s →
  c ∈ s → is_word U c = true →
  (if is_upper c then c + 32 else c) ∈ sanitize_filename U s.
Proof.
  intros Hs Hin Hw.
  assert (is_ascii c = true) as Ha by (by apply (proj1 (Forall_forall _ _) Hs)).
  unfold sanitize_filename, strip.
  assert ((if is_upper c then c + 32 else c) ≠ hyphen) as Hne
    by (clear -Ha Hw; char_lia).
  apply rstrip_keeps; [|done]. apply lstrip_keeps; [|done].
  apply sub_hyphens_keeps; [|done].
  unfold lower. rewrite lower_from_ascii.
  - apply list_elem_of_fmap. exists c. split; [done|].
    apply list_elem_of_In, filter_In. split; [|by rewrite Hw].
    unfold replace. apply in_map_iff. exists c. split.
    + clear -Ha Hw. char_lia.
    + by apply list_elem_of_In.
  - eapply Forall_impl; [exact (sub_non_word_ascii U s Hs)|]. by intros ? [? _].
Qed.

(** X21: for an ASCII query the sanitized name is empty exactly when the
    query has no letter, digit or underscore; the file is then named by
    the date stamp alone, "{date}_.csv". *)
Theorem sanitize_filename_empty_iff (E : env) (s : pystr) :
  Forall (λ c, c < 128) s →
  (sanitize_filename (unicode E) s = []
   ↔ Forall (λ c, is_word (unicode E) c = false) s)
  ∧ (sanitize_filename (unicode E) s = []
     → csv_filename E s = date_stamp E ++ lit "_.csv").
Proof.
  intros Hs%Forall_ascii. split; [split|].
  - intros Hempty. apply Forall_forall. intros c Hin.
    destruct (is_word (unicode E) c) eqn:Hw; [|done].
    pose proof (sanitize_filename_keeps_word _ s c Hs Hin Hw) as Hk.
    rewrite Hempty in Hk. by apply elem_of_nil in Hk.
  - apply sanitize_filename_no_word.
  - intros Hempty. unfold csv_filename. by rewrite Hempty.
Qed.

Lemma sanitize_filename_empty_iff_witness :
  (sanitize_filename ucd_excerpt (lit "?! - &") = []
   ↔ Forall (λ c, is_word ucd_excerpt c = false) (lit "?! - &"))
  ∧ (sanitize_filename ucd_excerpt (lit "?! - &") = []
     → csv_filename (sample_env (Ok [])) (lit "?! - &")
       = lit "20240131" ++ lit "_.csv").
Proof.
  apply (sanitize_filename_empty_iff (sample_env (Ok [])) (lit "?! - &")).
  repeat constructor.
Defined.

Lemma sub_non_word_lower (U : unicode_db) (s : pystr) :
  Forall (λ c, is_ascii c = true) s →
  (λ c, if is_upper c then c + 32 else c)
    <$> sub_non_word U (replace space hyphen s)
  = sub_non_word U
      (replace space hyphen ((λ c, if is_upper c then c + 32 else c) <$> s)).
Proof.
  induction 1 as [|c rest Hc _ IH]; [done|].
  rewrite fmap_cons. unfold sub_non_word, replace in *. cbn [List.map List.filter].
  assert ((if (if is_upper c then c + 32 else c) =? space then hyphen
           else if is_upper c then c + 32 else c)
          = (λ c, if is_upper c then c + 32 else c)
              (if c =? space then hyphen else c)) as ->
    by (clear -Hc; char_lia).
  assert (is_word U ((λ c, if is_upper c then c + 32 else c)
                       (if c =? space then hyphen else c))
          || ((λ c, if is_upper c then c + 32 else c)
                (if c =? space then hyphen else c) =? hyphen)
          = is_word U (if c =? space then hyphen else c)
            || ((if c =? space then hyphen else c) =? hyphen)) as ->.
  { clear -Hc. cbn beta.
    destruct (is_word U (if c =? space then hyphen else c)
              || ((if c =? space then hyphen else c) =? hyphen)) eqn:H;
      char_lia. }
  destruct (is_word U (if c =? space then hyphen else c)
            || ((if c =? space then hyphen else c) =? hyphen)).
  - rewrite fmap_cons. by rewrite IH.
  - exact IH.
Qed.

Lemma sanitize_filename_of_lower (U : unicode_db) (s : pystr) :
  Forall (λ c, is_ascii c = true) s →
  sanitize_filename U s
  = strip (sub_hyphens (sub_non_word U (replace space hyphen (lower U s)))).
Proof.
  intros Hs. unfold sanitize_filename, lower.
  rewrite (lower_from_ascii U [] s Hs), <- (sub_non_word_lower U s Hs).
  rewrite lower_from_ascii; [done|].
  eapply Forall_impl; [exact (sub_non_word_ascii U s Hs)|]. by intros ? [? _].
Qed.

(** X22: the name does not depend on the case of ASCII letters: two ASCII
    queries with the same lowercase form get the same name, hence the same
    file. *)
Theorem sanitize_filename_ignores_case (E : env) (s1 s2 : pystr) :
  Forall (λ c, c < 128) s1 →
  Forall (λ c, c < 128) s2 →
  lower (unicode E) s1 = lower (unicode E) s2 →
  sanitize_filename (unicode E) s1 = sanitize_filename (unicode E) s2
  ∧ csv_filename E s1 = csv_filename E s2.
Proof.
  intros H1%Forall_ascii H2%Forall_ascii Hl.
  assert (sanitize_filename (unicode E) s1 = sanitize_filename (unicode E) s2)
    as Heq by (by rewrite !sanitize_filename_of_lower, Hl).
  split; [done|]. unfold csv_filename. by rewrite Heq.
Qed.

Lemma sanitize_filename_ignores_case_witness :
  sanitize_filename ucd_excerpt (lit "PIZZA Hut")
    = sanitize_filename ucd_excerpt (lit "pizza hut")
  ∧ csv_filename (sample_env (Ok [])) (lit "PIZZA Hut")
    = csv_filename (sample_env (Ok [])) (lit "pizza hut").
Proof.
  apply (sanitize_filename_ignores_case (sample_env (Ok []))
           (lit "PIZZA Hut") (lit "pizza hut"));
    [repeat constructor | repeat constructor | reflexivity].
Defined.
